(** * kaya: the transaction pipeline of [src/logic.js]

    A shallow embedding of the transaction-processing logic of the kaya
    RPC server (payload validator, address derivation, transaction hash,
    transfer / contract dispatch, ledger, contract registry, snapshot
    export and load) together with the properties stated about it.

    Conventions.
    - JavaScript strings are Rocq [string]s, read as the UTF-8 bytes of
      the text; [toLowerCase] maps the ASCII letters.
    - JavaScript numbers are integers ([Int z], within the range where
      doubles are exact) or a non-integral number carried by its decimal
      rendering ([NonInt]).
    - A thrown exception is the [Throw] case of [result]; stateful code
      threads the process-wide [State] and keeps the state reached when
      the exception was raised.
    - Requests are processed one at a time: the await on the contract
      engine is a call that returns before anything else touches the
      state. *)

From Stdlib Require Import ZArith String Ascii List Lia DecimalString.
From stdpp Require Import gmap strings list pretty.
Import ListNotations.
Local Open Scope Z_scope.

(* ===================================================================== *)
(** ** Exceptions *)
(* ===================================================================== *)

Inductive error :=
| Error (message : string)      (* new Error(message) *)
| TypeError                     (* raised by the runtime on a bad access *)
| SyntaxError.                  (* raised by JSON.parse *)

Inductive result (A : Type) :=
| Return (a : A)
| Throw (e : error).
Arguments Return {A} a.
Arguments Throw {A} e.

Definition rbind {A B} (r : result A) (k : A -> result B) : result B :=
  match r with
  | Return a => k a
  | Throw e => Throw e
  end.

(* ===================================================================== *)
(** ** Strings and hexadecimal text *)
(* ===================================================================== *)

Definition chars (s : string) : list ascii := list_ascii_of_string s.
Definition text (l : list ascii) : string := string_of_list_ascii l.

(** The byte values of a string (Buffer.from(s)). *)
Definition bytes_of_string (s : string) : list Z :=
  map (fun c => Z.of_N (N_of_ascii c)) (chars s).

Definition lower_char (c : ascii) : ascii :=
  let n := N_of_ascii c in
  if ((65 <=? n) && (n <=? 90))%N then ascii_of_N (n + 32) else c.

(** String.prototype.toLowerCase *)
Definition toLowerCase (s : string) : string := text (map lower_char (chars s)).

(** s.slice(n) and s.substring(n) for an index within the string. *)
Definition str_drop (n : nat) (s : string) : string := text (drop n (chars s)).

(** String.prototype.repeat *)
Definition str_repeat (s : string) (n : nat) : string :=
  text (concat (repeat (chars s) n)).

Definition join (sep : string) (l : list string) : string := String.concat sep l.

Definition hex_char (d : Z) : ascii :=
  match d with
  | 0 => "0" | 1 => "1" | 2 => "2" | 3 => "3" | 4 => "4" | 5 => "5"
  | 6 => "6" | 7 => "7" | 8 => "8" | 9 => "9" | 10 => "a" | 11 => "b"
  | 12 => "c" | 13 => "d" | 14 => "e" | _ => "f"
  end%char.

(** The value of a hexadecimal digit, as parseInt(_, 16) reads it. *)
Definition hexval (c : ascii) : option Z :=
  let n := Z.of_N (N_of_ascii c) in
  if (48 <=? n) && (n <=? 57) then Some (n - 48)
  else if (97 <=? n) && (n <=? 102) then Some (n - 87)
  else if (65 <=? n) && (n <=? 70) then Some (n - 55)
  else None.

Definition is_alnum (c : ascii) : bool :=
  let n := Z.of_N (N_of_ascii c) in
  ((48 <=? n) && (n <=? 57)) || ((97 <=? n) && (n <=? 122))
  || ((65 <=? n) && (n <=? 90)).

(** Number.prototype.toString(16) for a non-negative integer, most
    significant digit first. *)
Fixpoint hex_digits (fuel : nat) (n : Z) : list ascii :=
  match fuel with
  | O => []
  | S fuel' =>
      if n <? 16 then [hex_char n]
      else hex_digits fuel' (n / 16) ++ [hex_char (n mod 16)]
  end.

Definition toString16 (n : Z) : list ascii :=
  hex_digits (S (Z.to_nat (Z.log2 n))) n.

(** The k low hexadecimal digits of n, most significant first. *)
Fixpoint hex_fixed (k : nat) (n : Z) : list ascii :=
  match k with
  | O => []
  | S k' => hex_fixed k' (n / 16) ++ [hex_char (n mod 16)]
  end.

(* ===================================================================== *)
(** ** hash.js: SHA-256 *)
(* ===================================================================== *)

Module Sha256.

Definition mask32 (x : Z) : Z := Z.land x 0xffffffff.
Definition sum32 (a b : Z) : Z := mask32 (a + b).
Definition rotr32 (w b : Z) : Z :=
  Z.lor (Z.shiftr w b) (mask32 (Z.shiftl w (32 - b))).
Definition ch32 (x y z : Z) : Z :=
  Z.lxor (Z.land x y) (Z.land (Z.lxor x 0xffffffff) z).
Definition maj32 (x y z : Z) : Z :=
  Z.lxor (Z.lxor (Z.land x y) (Z.land x z)) (Z.land y z).
Definition s0_256 (x : Z) : Z :=
  Z.lxor (Z.lxor (rotr32 x 2) (rotr32 x 13)) (rotr32 x 22).
Definition s1_256 (x : Z) : Z :=
  Z.lxor (Z.lxor (rotr32 x 6) (rotr32 x 11)) (rotr32 x 25).
Definition g0_256 (x : Z) : Z :=
  Z.lxor (Z.lxor (rotr32 x 7) (rotr32 x 18)) (Z.shiftr x 3).
Definition g1_256 (x : Z) : Z :=
  Z.lxor (Z.lxor (rotr32 x 17) (rotr32 x 19)) (Z.shiftr x 10).

(** The round constants, four to a row as in lib/hash/sha/256.js. *)
Definition sha256_K : list Z :=
  concat
    [ [0x428a2f98; 0x71374491; 0xb5c0fbcf; 0xe9b5dba5];
      [0x3956c25b; 0x59f111f1; 0x923f82a4; 0xab1c5ed5];
      [0xd807aa98; 0x12835b01; 0x243185be; 0x550c7dc3];
      [0x72be5d74; 0x80deb1fe; 0x9bdc06a7; 0xc19bf174];
      [0xe49b69c1; 0xefbe4786; 0x0fc19dc6; 0x240ca1cc];
      [0x2de92c6f; 0x4a7484aa; 0x5cb0a9dc; 0x76f988da];
      [0x983e5152; 0xa831c66d; 0xb00327c8; 0xbf597fc7];
      [0xc6e00bf3; 0xd5a79147; 0x06ca6351; 0x14292967];
      [0x27b70a85; 0x2e1b2138; 0x4d2c6dfc; 0x53380d13];
      [0x650a7354; 0x766a0abb; 0x81c2c92e; 0x92722c85];
      [0xa2bfe8a1; 0xa81a664b; 0xc24b8b70; 0xc76c51a3];
      [0xd192e819; 0xd6990624; 0xf40e3585; 0x106aa070];
      [0x19a4c116; 0x1e376c08; 0x2748774c; 0x34b0bcb5];
      [0x391c0cb3; 0x4ed8aa4a; 0x5b9cca4f; 0x682e6ff3];
      [0x748f82ee; 0x78a5636f; 0x84c87814; 0x8cc70208];
      [0x90befffa; 0xa4506ceb; 0xbef9a3f7; 0xc67178f2] ].

(** The eight chaining words this.h[0..7]. *)
Record hstate := H8 { h0 : Z; h1 : Z; h2 : Z; h3 : Z; h4 : Z; h5 : Z; h6 : Z; h7 : Z }.

Definition initial : hstate :=
  H8 0x6a09e667 0xbb67ae85 0x3c6ef372 0xa54ff53a
     0x510e527f 0x9b05688c 0x1f83d9ab 0x5be0cd19.

(** W[16..63]; the schedule is held newest word first. *)
Fixpoint schedule (n : nat) (wrev : list Z) : list Z :=
  match n with
  | O => wrev
  | S n' =>
      let w := sum32 (sum32 (sum32 (g1_256 (nth 1 wrev 0)) (nth 6 wrev 0))
                            (g0_256 (nth 14 wrev 0))) (nth 15 wrev 0) in
      schedule n' (w :: wrev)
  end.

Definition round (s : hstate) (kw : Z * Z) : hstate :=
  let '(H8 a b c d e f g h) := s in
  let T1 := sum32 (sum32 (sum32 (sum32 h (s1_256 e)) (ch32 e f g)) (fst kw)) (snd kw) in
  let T2 := sum32 (s0_256 a) (maj32 a b c) in
  H8 (sum32 T1 T2) a b c (sum32 d T1) e f g.

(** SHA256.prototype._update on one block of sixteen words. *)
Definition update_block (s : hstate) (block : list Z) : hstate :=
  let W := rev (schedule 48 (rev block)) in
  let '(H8 a b c d e f g h) := fold_left round (combine sha256_K W) s in
  H8 (sum32 (h0 s) a) (sum32 (h1 s) b) (sum32 (h2 s) c) (sum32 (h3 s) d)
     (sum32 (h4 s) e) (sum32 (h5 s) f) (sum32 (h6 s) g) (sum32 (h7 s) h).

(** utils.join32, big-endian. *)
Fixpoint join32 (n : nat) (bs : list Z) : list Z :=
  match n, bs with
  | S n', b3 :: b2 :: b1 :: b0 :: rest =>
      Z.lor (Z.lor (Z.lor (Z.shiftl b3 24) (Z.shiftl b2 16)) (Z.shiftl b1 8)) b0
        :: join32 n' rest
  | _, _ => []
  end.

Definition split32 (w : Z) : list Z :=
  [ Z.land (Z.shiftr w 24) 0xff; Z.land (Z.shiftr w 16) 0xff;
    Z.land (Z.shiftr w 8) 0xff; Z.land w 0xff ].

(** BlockHash.prototype._pad: 0x80, zeros up to 56 modulo 64, then the
    bit length (hash.js writes its low 32 bits) on eight bytes. *)
Definition pad (len : Z) : list Z :=
  let k := 64 - ((len + 8) mod 64) in
  let bits := len * 8 in
  0x80 :: repeat 0 (Z.to_nat (k - 1)) ++ [0; 0; 0; 0] ++ split32 (mask32 bits).

Fixpoint blocks (n : nat) (s : hstate) (bs : list Z) : hstate :=
  match n with
  | O => s
  | S n' => blocks n' (update_block s (join32 16 (take 64 bs))) (drop 64 bs)
  end.

Definition digest_bytes (s : hstate) : list Z :=
  split32 (h0 s) ++ split32 (h1 s) ++ split32 (h2 s) ++ split32 (h3 s) ++
  split32 (h4 s) ++ split32 (h5 s) ++ split32 (h6 s) ++ split32 (h7 s).

Definition sha256 (msg : list Z) : list Z :=
  let padded := msg ++ pad (Z.of_nat (length msg)) in
  digest_bytes (blocks (length padded / 64) initial padded).

(** utils.toHex: two lower-case digits per byte. *)
Definition toHex (bs : list Z) : list ascii :=
  flat_map (fun b => [hex_char (b / 16); hex_char (b mod 16)]) bs.

(** parseInt(c1 + c2, 16); a NaN entry counts as 0 once join32 ors the
    bytes into words. *)
Definition parse_pair (c1 c2 : ascii) : Z :=
  match hexval c1, hexval c2 with
  | Some a, Some b => 16 * a + b
  | Some a, None => a
  | None, _ => 0
  end.

Fixpoint pairs (l : list ascii) : list Z :=
  match l with
  | c1 :: c2 :: rest => parse_pair c1 c2 :: pairs rest
  | _ => []
  end.

(** utils.toArray(msg, 'hex') *)
Definition toArray_hex (msg : string) : list Z :=
  let m := filter (fun c => is_alnum c = true) (chars msg) in
  let m := if Nat.odd (length m) then "0"%char :: m else m in
  pairs m.

(** The hasher object: update appends to the pending message, digest
    hashes what was fed. *)
Definition hasher := list Z.
Definition create : hasher := [].
Definition update_hex (h : hasher) (msg : string) : hasher := h ++ toArray_hex msg.
Definition update_bytes (h : hasher) (msg : list Z) : hasher := h ++ msg.
Definition digest_hex (h : hasher) : string := text (toHex (sha256 h)).

End Sha256.

(* ===================================================================== *)
(** ** JavaScript values *)
(* ===================================================================== *)

Inductive number :=
| Int (z : Z)
| NonInt (rendering : string).

#[warnings="-register-all"]
Inductive value :=
| VUndefined
| VNull
| VBool (b : bool)
| VNum (n : number)
| VStr (s : string)
| VArr (items : list value)
| VObj (fields : list (string * value)).

(** An object's own properties, in enumeration order. *)
Abbreviation object := (list (string * value)).

Definition typeof (v : value) : string :=
  match v with
  | VUndefined => "undefined"
  | VBool _ => "boolean"
  | VNum _ => "number"
  | VStr _ => "string"
  | VNull | VArr _ | VObj _ => "object"
  end.

Definition truthy (v : value) : bool :=
  match v with
  | VUndefined | VNull => false
  | VBool b => b
  | VNum (Int z) => negb (z =? 0)
  | VNum (NonInt _) => true
  | VStr s => negb (String.eqb s "")
  | VArr _ | VObj _ => true
  end.

(** v === n for a number n. *)
Definition strictEqNum (v : value) (n : Z) : bool :=
  match v with
  | VNum (Int z) => z =? n
  | _ => false
  end.

(** v === s for a string s. *)
Definition strictEqStr (v : value) (s : string) : bool :=
  match v with
  | VStr t => String.eqb t s
  | _ => false
  end.

Definition isInteger (v : value) : bool :=
  match v with
  | VNum (Int _) => true
  | _ => false
  end.

Fixpoint getField (o : object) (k : string) : value :=
  match o with
  | [] => VUndefined
  | (k', v) :: rest => if String.eqb k' k then v else getField rest k
  end.

(** o[k] = v: an existing property keeps its place, a new one goes last. *)
Fixpoint setField (o : object) (k : string) (v : value) : object :=
  match o with
  | [] => [(k, v)]
  | (k', v') :: rest =>
      if String.eqb k' k then (k', v) :: rest else (k', v') :: setField rest k v
  end.

(** delete o[k] *)
Definition deleteField (o : object) (k : string) : object :=
  filter (fun kv => fst kv ≠ k) o.

(** The name of the array index i, in decimal. *)
Definition index_name (i : nat) : string :=
  NilEmpty.string_of_uint (Nat.to_uint i).

Definition index_of (k : string) (len : nat) : option nat :=
  snd <$> list_find (fun i => index_name i = k) (seq 0 len).

(** v[k], also written v.k: own properties of an object, the elements
    and the length of an array or a string; reading a property of null
    or undefined raises a TypeError. *)
Definition getProp (v : value) (k : string) : result value :=
  match v with
  | VUndefined | VNull => Throw TypeError
  | VObj o => Return (getField o k)
  | VArr l =>
      Return (if String.eqb k "length" then VNum (Int (Z.of_nat (length l)))
              else match index_of k (length l) with
                   | Some i => nth i l VUndefined
                   | None => VUndefined
                   end)
  | VStr s =>
      Return (if String.eqb k "length" then VNum (Int (Z.of_nat (length (chars s))))
              else match index_of k (length (chars s)) with
                   | Some i => match chars s !! i with
                               | Some c => VStr (text [c])
                               | None => VUndefined
                               end
                   | None => VUndefined
                   end)
  | _ => Return VUndefined
  end.

(** v.toLowerCase() *)
Definition callToLowerCase (v : value) : result string :=
  match v with
  | VStr s => Return (toLowerCase s)
  | _ => Throw TypeError
  end.

(** Object.keys *)
Definition Object_keys (v : value) : result (list string) :=
  match v with
  | VUndefined | VNull => Throw TypeError
  | VObj o => Return (map fst o)
  | VArr l => Return (map index_name (seq 0 (length l)))
  | VStr s => Return (map index_name (seq 0 (length (chars s))))
  | _ => Return []
  end.

(* ===================================================================== *)
(** ** JSON *)
(* ===================================================================== *)

Definition hex4 (n : Z) : list ascii :=
  [hex_char (n / 4096 mod 16); hex_char (n / 256 mod 16);
   hex_char (n / 16 mod 16); hex_char (n mod 16)].

Definition dquote : ascii := ascii_of_N 34.
Definition backslash : ascii := ascii_of_N 92.

Definition escape_char (c : ascii) : list ascii :=
  let n := Z.of_N (N_of_ascii c) in
  if n =? 34 then [backslash; dquote]
  else if n =? 92 then [backslash; backslash]
  else if n =? 8 then [backslash; "b"%char]
  else if n =? 12 then [backslash; "f"%char]
  else if n =? 10 then [backslash; "n"%char]
  else if n =? 13 then [backslash; "r"%char]
  else if n =? 9 then [backslash; "t"%char]
  else if n <? 32 then backslash :: "u"%char :: hex4 n
  else [c].

(** The quoted form of a string in JSON.stringify. *)
Definition quote (s : string) : string :=
  text (dquote :: flat_map escape_char (chars s) ++ [dquote]).

Definition render_number (n : number) : string :=
  match n with
  | Int z => pretty z
  | NonInt r => r
  end.

(** JSON.stringify; [None] is the result undefined. *)
Fixpoint stringify (v : value) : option string :=
  match v with
  | VUndefined => None
  | VNull => Some "null"
  | VBool b => Some (if b then "true" else "false")
  | VNum n => Some (render_number n)
  | VStr s => Some (quote s)
  | VArr l =>
      Some ("[" +:+ join "," (map (fun x => default "null" (stringify x)) l) +:+ "]")
  | VObj o =>
      Some ("{" +:+
            join "," (omap (fun kv => match stringify (snd kv) with
                                      | Some t => Some (quote (fst kv) +:+ ":" +:+ t)
                                      | None => None
                                      end) o)
            +:+ "}")
  end.

(** What JSON.parse(JSON.stringify(v)) builds from a defined value:
    a structural copy in which undefined array elements become null and
    properties whose value is undefined are left out. *)
Fixpoint jsonCopy (v : value) : value :=
  match v with
  | VArr l =>
      VArr (map (fun x => match x with VUndefined => VNull | _ => jsonCopy x end) l)
  | VObj o =>
      VObj (omap (fun kv => match snd kv with
                            | VUndefined => None
                            | _ => Some (fst kv, jsonCopy (snd kv))
                            end) o)
  | _ => v
  end.

(** JSON.parse(JSON.stringify(v)); JSON.parse(undefined) is a syntax error. *)
Definition jsonRoundTrip (v : value) : result value :=
  match v with
  | VUndefined => Throw SyntaxError
  | _ => Return (jsonCopy v)
  end.

(** delete v.k *)
Definition deleteProp (v : value) (k : string) : result value :=
  match v with
  | VUndefined | VNull => Throw TypeError
  | VObj o => Return (VObj (deleteField o k))
  | _ => Return v
  end.

(* ===================================================================== *)
(** ** Payload validator *)
(* ===================================================================== *)

Definition expectedFields : list string :=
  [ "version"; "nonce"; "toAddr"; "amount"; "pubKey"; "gasPrice"; "gasLimit";
    "signature" ].

(** [...new Set(a)]: the distinct elements, first occurrences kept. *)
Fixpoint nub (l : list string) : list string :=
  match l with
  | [] => []
  | x :: rest => x :: filter (fun y => y ≠ x) (nub rest)
  end.

(** intersect = (a, b) => [...new Set(a)].filter(x => new Set(b).has(x)) *)
Definition intersect (a b : list string) : list string :=
  filter (fun x => x ∈ b) (nub a).

(** The callback handed to Object.keys(payload).map: its value is what
    the arrow function returns for the key e ([VUndefined] when it falls
    off the end). *)
Definition typeCheck (payload : value) (e : string) : result value :=
  if String.eqb e "version" || String.eqb e "nonce" then
    rbind (getProp payload e) (fun x =>
    if negb (isInteger x) then Return (VBool false) else Return VUndefined)
  else
    rbind (getProp payload e) (fun x =>
    (* typeof(payload[e] !== 'string') is the type of a boolean *)
    if truthy (VStr (typeof (VBool (negb (strictEqStr x "string")))))
    then Return (VBool false) else Return VUndefined).

Fixpoint mapM {A B} (f : A -> result B) (l : list A) : result (list B) :=
  match l with
  | [] => Return []
  | x :: rest => rbind (f x) (fun y => rbind (mapM f rest) (fun ys => Return (y :: ys)))
  end.

Definition checkTransactionJson (data : value) : result bool :=
  if negb (match data with VNull => true | _ => false end)
     && negb (String.eqb (typeof data) "object")
  then Return false
  else
    rbind (getProp data "0") (fun payload =>
    rbind (Object_keys payload) (fun keys =>
    let numKeys := length keys in
    if (numKeys <? 8)%nat then Return false
    else
      let payloadKeys := keys in
      let expected := length (intersect payloadKeys expectedFields) in
      let actual := length (seq 0 (length expectedFields)) in
      if negb (expected =? actual)%nat then Return false
      else
        (* the array built by map is dropped *)
        rbind (mapM (typeCheck payload) keys) (fun _ =>
        Return true))).

(* ===================================================================== *)
(** ** Address deriver *)
(* ===================================================================== *)

(** bytes.intToHexArray of @zilliqa-js/util: the digits of
    int.toString(16), one per element, left-padded with "0" to [size]
    elements. *)
Definition intToHexArray (int : Z) (size : nat) : list string :=
  let hexVal := toString16 int in
  map (fun c => text [c]) (repeat "0"%char (size - length hexVal) ++ hexVal).

Definition computeTransactionHash (payload : value) : result string :=
  rbind (jsonRoundTrip payload) (fun copyPayload =>
  rbind (deleteProp copyPayload "signature") (fun copyPayload =>
  match stringify copyPayload with
  | Some s =>
      let buf := bytes_of_string s in
      Return (Sha256.digest_hex (Sha256.update_bytes Sha256.create buf))
  | None => Throw TypeError
  end)).

(* ===================================================================== *)
(** ** Account gateway *)
(* ===================================================================== *)

(** What walletCtrl.getBalance returns. *)
Record Account := { balance : Z; nonce : Z }.

(** Modelled from the spec: the Account Gateway, components/wallet/wallet.js,
    which is not among the sources. The spec gives its interface
    (getBalance, deductFunds, addFunds, increaseNonce, sufficientFunds);
    deductFunds subtracts without a check ("deduction can drive a balance
    negative"), addFunds credits, increaseNonce adds one, sufficientFunds
    compares the balance with the amount. Each operation touches the
    named account only. *)
Class AccountGateway (W : Type) := {
  getBalance : W -> string -> Account;
  deductFunds : W -> string -> Z -> W;
  addFunds : W -> string -> Z -> W;
  increaseNonce : W -> string -> W;
  sufficientFunds : W -> string -> Z -> bool;
  getBalance_deductFunds : forall w a x b,
    getBalance (deductFunds w a x) b =
    if decide (b = a)
    then {| balance := balance (getBalance w a) - x; nonce := nonce (getBalance w a) |}
    else getBalance w b;
  getBalance_addFunds : forall w a x b,
    getBalance (addFunds w a x) b =
    if decide (b = a)
    then {| balance := balance (getBalance w a) + x; nonce := nonce (getBalance w a) |}
    else getBalance w b;
  getBalance_increaseNonce : forall w a b,
    getBalance (increaseNonce w a) b =
    if decide (b = a)
    then {| balance := balance (getBalance w a); nonce := nonce (getBalance w a) + 1 |}
    else getBalance w b;
  sufficientFunds_spec : forall w a x,
    sufficientFunds w a x = (x <=? balance (getBalance w a))
}.

(** Modelled from the spec: a wallet satisfying the interface above, a
    finite map from addresses to accounts in which an address never seen
    has balance 0 and nonce 0. *)
Abbreviation MapWallet := (gmap string Account).

Definition mw_get (w : MapWallet) (a : string) : Account :=
  default {| balance := 0; nonce := 0 |} (w !! a).
Definition mw_deduct (w : MapWallet) (a : string) (x : Z) : MapWallet :=
  <[a := {| balance := balance (mw_get w a) - x; nonce := nonce (mw_get w a) |}]> w.
Definition mw_add (w : MapWallet) (a : string) (x : Z) : MapWallet :=
  <[a := {| balance := balance (mw_get w a) + x; nonce := nonce (mw_get w a) |}]> w.
Definition mw_increase (w : MapWallet) (a : string) : MapWallet :=
  <[a := {| balance := balance (mw_get w a); nonce := nonce (mw_get w a) + 1 |}]> w.
Definition mw_sufficient (w : MapWallet) (a : string) (x : Z) : bool :=
  x <=? balance (mw_get w a).

#[export] Instance MapWallet_gateway : AccountGateway MapWallet.
Proof.
  refine {| getBalance := mw_get; deductFunds := mw_deduct; addFunds := mw_add;
            increaseNonce := mw_increase; sufficientFunds := mw_sufficient |};
    [ intros w a x b; unfold mw_deduct
    | intros w a x b; unfold mw_add
    | intros w a b; unfold mw_increase
    | reflexivity ];
    unfold mw_get at 1; rewrite lookup_insert;
    repeat case_decide; simplify_eq; reflexivity.
Defined.

Section AddressDeriver.
Context {W : Type} `{AccountGateway W}.

Definition computeContractAddr (w : W) (senderAddr : string) : string :=
  let userNonce := nonce (getBalance w senderAddr) in
  str_drop 24
    (Sha256.digest_hex
       (Sha256.update_hex
          (Sha256.update_hex Sha256.create senderAddr)
          (join "" (intToHexArray userNonce 16)))).

End AddressDeriver.

(** The n-byte big-endian encoding of an integer. *)
Fixpoint be_bytes (k : nat) (n : Z) : list Z :=
  match k with
  | O => []
  | S k' => be_bytes k' (n / 256) ++ [n mod 256]
  end.

(** The contract address as the specification words it: the last twenty
    bytes, in hexadecimal, of the SHA-256 digest of the sender address
    bytes followed by the nonce on [width] big-endian bytes. *)
Definition contractAddr_spec (width : nat) (senderAddr : string) (userNonce : Z)
    : string :=
  let d := Sha256.sha256 (Sha256.toArray_hex senderAddr ++ be_bytes width userNonce) in
  text (Sha256.toHex (drop (length d - 20) d)).

(* ===================================================================== *)
(** ** Collaborators outside logic.js *)
(* ===================================================================== *)

(** What scillaCtrl.executeScillaRun resolves to. *)
Record ScillaResponse := { nextAddress : string; gasRemaining : value }.

(** The configuration constants and the library and engine entry points
    the pipeline calls. They are taken as given:
    - config.blockchain.gasPrice and config.blockchain.transferGasCost;
    - zCrypto.getAddressFromPublicKey and zUtils.validation.isAddress;
    - the bn.js constructor, new BN(v);
    - the comparison v < n of a payload value with a number;
    - JSON.parse on the text of a state file;
    - scillaCtrl.executeScillaRun(payload, contractAddr, senderAddress,
      dir, currentBNum), which may fail and may write contract files. *)
Record Env := {
  cfg_gasPrice : Z;
  cfg_transferGasCost : Z;
  getAddressFromPublicKey : value -> result string;
  isAddress : string -> bool;
  BN : value -> result Z;
  lessThan : value -> Z -> bool;
  JSON_parse : string -> result value;
  executeScillaRun :
    value -> string -> string -> value -> Z -> gmap string string ->
    result ScillaResponse * gmap string string
}.

(* ===================================================================== *)
(** ** Ledger, registry and the process state *)
(* ===================================================================== *)

Record RecInfo := { cumulative_gas : Z; success : bool }.

(** txnDetails *)
Record TxnDetails := {
  txn_ID : string;
  txn_amount : value;
  txn_nonce : value;
  txn_receipt : RecInfo;
  txn_senderPubKey : value;
  txn_signature : value;
  txn_toAddr : value;
  txn_version : value
}.

(** responseObj *)
Record Response := {
  Info : string;
  ContractAddress : option string;
  TranID : string
}.

(** What exportData returns and loadData takes. *)
Record Snapshot := {
  snap_transactions : gmap string TxnDetails;
  snap_createdContractsByUsers : gmap string (list string)
}.

Record ContractState := { cs_address : string; cs_state : value }.

Definition zeros40 : string := str_repeat "0" 40.

Section Pipeline.
Context {W : Type} `{AccountGateway W}.
Variable env : Env.

(** The state the pipeline reads and writes: the two module variables of
    logic.js, the wallet, the block number and the contract files. *)
Record State := {
  wallet : W;
  blockNum : Z;
  files : gmap string string;
  transactions : gmap string TxnDetails;
  createdContractsByUsers : gmap string (list string)
}.

Definition with_wallet (f : W -> W) (s : State) : State :=
  {| wallet := f (wallet s); blockNum := blockNum s; files := files s;
     transactions := transactions s;
     createdContractsByUsers := createdContractsByUsers s |}.
Definition with_files (fs : gmap string string) (s : State) : State :=
  {| wallet := wallet s; blockNum := blockNum s; files := fs;
     transactions := transactions s;
     createdContractsByUsers := createdContractsByUsers s |}.
Definition with_transactions (t : gmap string TxnDetails) (s : State) : State :=
  {| wallet := wallet s; blockNum := blockNum s; files := files s;
     transactions := t;
     createdContractsByUsers := createdContractsByUsers s |}.
Definition with_contracts (c : gmap string (list string)) (s : State) : State :=
  {| wallet := wallet s; blockNum := blockNum s; files := files s;
     transactions := transactions s;
     createdContractsByUsers := c |}.

(** Computations over the state that may throw. *)
Definition M (A : Type) : Type := State -> result A * State.

Definition ret {A} (a : A) : M A := fun s => (Return a, s).
Definition throw {A} (e : error) : M A := fun s => (Throw e, s).
Definition bind {A B} (m : M A) (k : A -> M B) : M B :=
  fun s => match m s with
           | (Return a, s') => k a s'
           | (Throw e, s') => (Throw e, s')
           end.
Definition lift {A} (r : result A) : M A := fun s => (r, s).
Definition gets {A} (f : State -> A) : M A := fun s => (Return (f s), s).
Definition modify (f : State -> State) : M unit := fun s => (Return tt, f s).

Notation "x <- c ;; k" := (bind c (fun x => k))
  (at level 100, c at next level, right associativity).
Notation "c ;;; k" := (bind c (fun _ => k))
  (at level 100, right associativity).

Definition runScilla (payload : value) (contractAddr senderAddress : string)
    (dir : value) (currentBNum : Z) : M ScillaResponse :=
  fun s =>
    let '(r, fs) := executeScillaRun env payload contractAddr senderAddress dir
                      currentBNum (files s) in
    (r, with_files fs s).

(** exportData *)
Definition exportData (s : State) : Snapshot :=
  {| snap_transactions := transactions s;
     snap_createdContractsByUsers := createdContractsByUsers s |}.

(** loadData *)
Definition loadData (txns : gmap string TxnDetails)
    (contractsByUsers : gmap string (list string)) (s : State) : State :=
  with_contracts contractsByUsers (with_transactions txns s).

(** The update of createdContractsByUsers on a deployment: push onto the
    sender's list when the sender is a key, a one-element list otherwise. *)
Definition appendContract (senderAddress contractAddr : string)
    (registry : gmap string (list string)) : gmap string (list string) :=
  match registry !! senderAddress with
  | Some l => <[senderAddress := l ++ [contractAddr]]> registry
  | None => <[senderAddress := [contractAddr]]> registry
  end.

(** processCreateTxn; the log lines are left out. *)
Definition processCreateTxn (data options : value) : M Response :=
  wellFormed <- lift (checkTransactionJson data) ;;
  if negb wellFormed then throw (Error "Invalid Tx Json")
  else
  currentBNum <- gets blockNum ;;
  dir <- lift (getProp options "dataPath") ;;
  payload <- lift (getProp data "0") ;;
  pubKey <- lift (getProp payload "pubKey") ;;
  senderAddress <- lift (getAddressFromPublicKey env pubKey) ;;
  userNonce <- gets (fun s => nonce (getBalance (wallet s) senderAddress)) ;;
  payloadGasPrice <- lift (getProp payload "gasPrice") ;;
  let blockchainGasPrice := cfg_gasPrice env in
  if lessThan env payloadGasPrice blockchainGasPrice then
    throw (Error ("Payload gas price is insufficient. Current gas price is "
                  +:+ pretty (cfg_gasPrice env)))
  else
  bnTransferTransactionCost <-
    lift (BN env (VNum (Int (cfg_transferGasCost env * cfg_gasPrice env)))) ;;
  payloadNonce <- lift (getProp payload "nonce") ;;
  if negb (strictEqNum payloadNonce (userNonce + 1)) then
    (* payload.nonce is not valid. Deduct gas anyway *)
    modify (with_wallet (fun w => deductFunds w senderAddress bnTransferTransactionCost)) ;;;
    throw (Error "Invalid Tx Json")
  else
  payloadAmount <- lift (getProp payload "amount") ;;
  bnAmount <- lift (BN env payloadAmount) ;;
  payloadGasLimit <- lift (getProp payload "gasLimit") ;;
  bnGasLimit <- lift (BN env payloadGasLimit) ;;
  bnGasPrice <- lift (BN env payloadGasPrice) ;;
  payloadCode <- lift (getProp payload "code") ;;
  payloadData <- lift (getProp payload "data") ;;
  payloadToAddr <- lift (getProp payload "toAddr") ;;
  responseObj <-
    (if negb (truthy payloadCode) && negb (truthy payloadData) then
       (* p2p token transfer *)
       let totalSum := bnAmount + bnTransferTransactionCost in
       modify (with_wallet (fun w => deductFunds w senderAddress totalSum)) ;;;
       modify (with_wallet (fun w => increaseNonce w senderAddress)) ;;;
       receiver <- lift (callToLowerCase payloadToAddr) ;;
       modify (with_wallet (fun w => addFunds w receiver bnAmount)) ;;;
       ret ("Non-contract txn, sent to shard", None)
     else
       (* contract creation / invoke transition *)
       contractAddr <- gets (fun s => computeContractAddr (wallet s) senderAddress) ;;
       let bnGasLimitInZils := bnGasLimit * bnGasPrice in
       let bnAmountRequiredForTx := bnAmount + bnGasLimitInZils in
       enough <- gets (fun s => sufficientFunds (wallet s) senderAddress
                                  bnAmountRequiredForTx) ;;
       if negb enough then throw (Error "Insufficient funds")
       else
       responseData <- runScilla payload contractAddr senderAddress dir currentBNum ;;
       let nextAddr := nextAddress responseData in
       bnGasRemaining <- lift (BN env (gasRemaining responseData)) ;;
       let bnGasConsumed := bnGasLimit - bnGasRemaining in
       let gasConsumedInZil := bnGasPrice * bnGasConsumed in
       let deductableAmount := gasConsumedInZil + bnAmount in
       modify (with_wallet (fun w => deductFunds w senderAddress deductableAmount)) ;;;
       modify (with_wallet (fun w => increaseNonce w senderAddress)) ;;;
       if negb (String.eqb nextAddr zeros40)
          && negb (String.eqb (str_drop 2 nextAddr) senderAddress)
       then throw (Error "Multi-contract calls are not supported yet.")
       else
       (* Only update if it is a deployment call *)
       if truthy payloadCode && strictEqStr payloadToAddr zeros40 then
         modify (fun s =>
           with_contracts
             (appendContract senderAddress contractAddr (createdContractsByUsers s)) s) ;;;
         ret ("Contract Creation txn, sent to shard", Some contractAddr)
       else
         ret ("Contract Txn, Shards Match of the sender and receiver", None)) ;;
  (* Update Transactions *)
  txnId <- lift (computeTransactionHash payload) ;;
  let recInfo := {| cumulative_gas := 1; success := true |} in
  payloadSignature <- lift (getProp payload "signature") ;;
  payloadVersion <- lift (getProp payload "version") ;;
  let txnDetails :=
    {| txn_ID := txnId; txn_amount := payloadAmount; txn_nonce := payloadNonce;
       txn_receipt := recInfo; txn_senderPubKey := pubKey;
       txn_signature := payloadSignature; txn_toAddr := payloadToAddr;
       txn_version := payloadVersion |} in
  modify (fun s => with_transactions (<[txnId := txnDetails]> (transactions s)) s) ;;;
  ret {| Info := fst responseObj; ContractAddress := snd responseObj;
         TranID := txnId |}.

(** The record written to the ledger for the payload o. *)
Definition details_of (o : object) (txnId : string) : TxnDetails :=
  {| txn_ID := txnId; txn_amount := getField o "amount";
     txn_nonce := getField o "nonce";
     txn_receipt := {| cumulative_gas := 1; success := true |};
     txn_senderPubKey := getField o "pubKey";
     txn_signature := getField o "signature";
     txn_toAddr := getField o "toAddr";
     txn_version := getField o "version" |}.

(** The state a transfer leaves: the three wallet calls, then the ledger
    entry. *)
Definition after_transfer (senderAddress receiver : string) (total bnAmount : Z)
    (txnId : string) (details : TxnDetails) (st : State) : State :=
  with_transactions (<[txnId := details]> (transactions st))
    (with_wallet (λ w, addFunds w receiver bnAmount)
       (with_wallet (λ w, increaseNonce w senderAddress)
          (with_wallet (λ w, deductFunds w senderAddress total) st))).

(** The forEach loop of processGetSmartContracts over the creator's
    contracts. *)
Fixpoint readStates (dataPath : string) (fs : gmap string string)
    (contracts : list string) : result (list ContractState) :=
  match contracts with
  | [] => Return []
  | contractId :: rest =>
      let statePath := dataPath +:+ toLowerCase contractId +:+ "_state.json" in
      match fs !! statePath with
      | None => Throw (Error "Address does not exist")
      | Some content =>
          rbind (JSON_parse env content) (fun retMsg =>
          rbind (readStates dataPath fs rest) (fun stateLists =>
          Return ({| cs_address := contractId; cs_state := retMsg |} :: stateLists)))
      end
  end.

(** processGetSmartContracts *)
Definition processGetSmartContracts (data : value) (dataPath : string)
    : M (list ContractState) :=
  if negb (truthy data) then
    throw (Error "INVALID_PARAMS: Invalid method parameters (invalid name and/or type) recognised")
  else
  first <- lift (getProp data "0") ;;
  addr <- lift (callToLowerCase first) ;;
  (* addr is a string here, so addr === null is false *)
  if negb (isAddress env addr) then throw (Error "Address size inappropriate")
  else
  registry <- gets createdContractsByUsers ;;
  match registry !! addr with
  | None => throw (Error "Address does not exist")
  | Some contracts =>
      fs <- gets files ;;
      lift (readStates dataPath fs contracts)
  end.

End Pipeline.

(* ===================================================================== *)
(** ** A concrete environment for worked examples *)
(* ===================================================================== *)

Module Sample.

Fixpoint decimal (acc : Z) (l : list ascii) : option Z :=
  match l with
  | [] => Some acc
  | c :: rest =>
      let n := Z.of_N (N_of_ascii c) in
      if (48 <=? n) && (n <=? 57) then decimal (10 * acc + (n - 48)) rest else None
  end.

(** new BN(v) on integers and on strings of decimal digits. *)
Definition parseBN (v : value) : result Z :=
  match v with
  | VNum (Int z) => Return z
  | VStr s => match decimal 0 (chars s) with
              | Some z => Return z
              | None => Throw (Error "Invalid character")
              end
  | _ => Throw (Error "Invalid character")
  end.

(** v < n: strings of decimal digits and integers compare by value, what
    does not convert compares false. *)
Definition less (v : value) (n : Z) : bool :=
  match parseBN v with
  | Return z => z <? n
  | Throw _ => false
  end.

(** The address of a public key: the last twenty bytes of the SHA-256 of
    the key bytes. *)
Definition addressOf (v : value) : result string :=
  match v with
  | VStr s =>
      Return (str_drop 24 (Sha256.digest_hex
                             (Sha256.update_hex Sha256.create (toLowerCase s))))
  | _ => Throw TypeError
  end.

(** Forty hexadecimal digits. *)
Definition validAddress (s : string) : bool :=
  (length (chars s) =? 40)%nat
  && forallb (fun c => match hexval c with Some _ => true | None => false end) (chars s).

Definition parseJSON (s : string) : result value :=
  if String.eqb s "[]" then Return (VArr [])
  else if String.eqb s "null" then Return VNull
  else Throw SyntaxError.

(** An engine that uses one unit of gas, leaves an empty state file for
    the contract and names [next] as the next address. *)
Definition engine (next : string) (payload : value)
    (contractAddr senderAddress : string) (dir : value) (currentBNum : Z)
    (fs : gmap string string) : result ScillaResponse * gmap string string :=
  let d := match dir with VStr d => d | _ => "" end in
  match rbind (getProp payload "gasLimit") parseBN with
  | Return limit =>
      (Return {| nextAddress := next; gasRemaining := VNum (Int (limit - 1)) |},
       <[d +:+ contractAddr +:+ "_state.json" := "[]"]> fs)
  | Throw e => (Throw e, fs)
  end.

Definition env (next : string) : Env :=
  {| cfg_gasPrice := 1;
     cfg_transferGasCost := 1;
     getAddressFromPublicKey := addressOf;
     isAddress := validAddress;
     BN := parseBN;
     lessThan := less;
     JSON_parse := parseJSON;
     executeScillaRun := engine next |}.

Definition alicePubKey : string :=
  "0246e7178dc8253201101e18fd6f6eb9972451d121fc57aa2a06dd5c111e58dc6a".

Definition alice : string :=
  Eval vm_compute in
    match addressOf (VStr alicePubKey) with
    | Return a => a
    | Throw _ => ""
    end.

Definition bob : string := "8f14cb1735b2b5fba397bea1c223d65d12b9a887".

(** The fields of a request signed by Alice. *)
Definition fields (payloadNonce : Z) (toAddr amount : string) (extra : object)
    : object :=
  [ ("version", VNum (Int 1)); ("nonce", VNum (Int payloadNonce));
    ("toAddr", VStr toAddr); ("amount", VStr amount);
    ("pubKey", VStr alicePubKey); ("gasPrice", VStr "1");
    ("gasLimit", VStr "10"); ("signature", VStr "29ad673848dcd7f5168f205f7a9fcd1e") ]
  ++ extra.

(** The params array of the request. *)
Definition params (payloadNonce : Z) (toAddr amount : string) (extra : object)
    : value :=
  VArr [VObj (fields payloadNonce toAddr amount extra)].

Definition options : value := VObj [("dataPath", VStr "data/")].

(** Alice holds 1000 at nonce 4. *)
Definition st0 : State (W := MapWallet) :=
  {| wallet := {[ alice := {| balance := 1000; nonce := 4 |} ]};
     blockNum := 7; files := ∅; transactions := ∅;
     createdContractsByUsers := ∅ |}.

(** The address the engine names when a contract calls another one. *)
Definition otherContract : string := "0x" +:+ bob.

(** The state file the sample engine leaves for Alice's first contract. *)
Definition stateFiles : gmap string string :=
  {[ "data/" +:+ computeContractAddr (wallet st0) alice +:+ "_state.json" := "[]" ]}.

End Sample.

(* ===================================================================== *)
(** ** Queries *)
(* ===================================================================== *)

(** The white space String.prototype.trim removes, as UTF-8 byte
    sequences: TAB, LF, VT, FF, CR, SP, U+00A0, U+1680, U+2000 to U+200A,
    U+2028, U+2029, U+202F, U+205F, U+3000 and U+FEFF. *)
Definition whitespace : list (list ascii) :=
  map (map ascii_of_N)
    ([ [9]; [10]; [11]; [12]; [13]; [32]; [194; 160]; [225; 154; 128] ]
     ++ map (fun n => [226; 128; n]) [128; 129; 130; 131; 132; 133; 134; 135; 136; 137; 138]
     ++ [ [226; 128; 168]; [226; 128; 169]; [226; 128; 175]; [226; 129; 159];
          [227; 128; 128]; [239; 187; 191] ])%N.

(** The rest of l after the prefix p, when p is a prefix of l. *)
Fixpoint after_prefix (p l : list ascii) : option (list ascii) :=
  match p, l with
  | [], _ => Some l
  | c :: p', d :: l' => if Ascii.eqb c d then after_prefix p' l' else None
  | _ :: _, [] => None
  end.

Fixpoint after_any (seqs : list (list ascii)) (l : list ascii) : option (list ascii) :=
  match seqs with
  | [] => None
  | p :: rest => match after_prefix p l with
                 | Some l' => Some l'
                 | None => after_any rest l
                 end
  end.

Fixpoint strip_leading (seqs : list (list ascii)) (fuel : nat) (l : list ascii)
    : list ascii :=
  match fuel with
  | O => l
  | S fuel' => match after_any seqs l with
               | Some l' => strip_leading seqs fuel' l'
               | None => l
               end
  end.

(** String.prototype.trim *)
Definition trim (s : string) : string :=
  let front := strip_leading whitespace (length (chars s)) (chars s) in
  text (rev (strip_leading (map (@rev ascii) whitespace) (length front) (rev front))).

Fixpoint sequenceR {A} (l : list (result A)) : result (list A) :=
  match l with
  | [] => Return []
  | r :: rest => rbind r (fun x => rbind (sequenceR rest) (fun xs => Return (x :: xs)))
  end.

(** ToString, as the property access o[v] applies it to the key: arrays
    join their elements with commas (null and undefined elements are
    empty), a plain object is "[object Object]" unless an own toString
    property, which is not callable, hides the inherited method and the
    conversion raises a TypeError. *)
Fixpoint toPropertyKey (v : value) : result string :=
  match v with
  | VUndefined => Return "undefined"
  | VNull => Return "null"
  | VBool b => Return (if b then "true" else "false")
  | VNum n => Return (render_number n)
  | VStr s => Return s
  | VArr l =>
      rbind (sequenceR (map (fun x => match x with
                                      | VUndefined | VNull => Return ""
                                      | _ => toPropertyKey x
                                      end) l))
            (fun parts => Return (join "," parts))
  | VObj o =>
      if bool_decide ("toString" ∈ map fst o) then Throw TypeError
      else Return "[object Object]"
  end.

(** The property names every object inherits from Object.prototype. *)
Definition objectPrototypeNames : list string :=
  [ "constructor"; "__defineGetter__"; "__defineSetter__"; "hasOwnProperty";
    "__lookupGetter__"; "__lookupSetter__"; "isPrototypeOf";
    "propertyIsEnumerable"; "toString"; "valueOf"; "__proto__"; "toLocaleString" ].

(** What transactions[key] evaluates to when it is truthy: a record of
    the ledger, or the member of Object.prototype the key names. *)
Inductive TxnLookup :=
| Recorded (details : TxnDetails)
| Inherited (name : string).

Definition invalidParams : string :=
  "INVALID_PARAMS: Invalid method parameters (invalid name and/or type) recognised".

Section Queries.
Context {W : Type} `{AccountGateway W}.
Variable env : Env.

(** zUtils.validation.isAddress on an argument that is not a string (a
    number, a boolean, an array, an object), taken as given. *)
Variable isAddressOfNonString : value -> result bool.

Notation "x <- c ;; k" := (bind c (fun x => k))
  (at level 100, c at next level, right associativity).

(** processGetTransaction *)
Definition processGetTransaction (data : value) : M (W := W) TxnLookup :=
  if negb (truthy data) then throw (Error invalidParams)
  else
  first <- lift (getProp data "0") ;;
  key <- lift (toPropertyKey first) ;;
  txns <- gets transactions ;;
  match txns !! key with
  | Some res => ret (Recorded res)
  | None =>
      if bool_decide (key ∈ objectPrototypeNames) then ret (Inherited key)
      else throw (Error "Txn Hash not Present.")
  end.

(** processGetDataFromContract; the answer is { code: text } for the
    code of a contract and the parsed file otherwise. *)
Definition processGetDataFromContract (data : value) (dataPath type : string)
    : M (W := W) value :=
  let fileType := toLowerCase (trim type) in
  if negb (bool_decide (fileType ∈ ["init"; "state"; "code"])) then
    throw (Error "Invalid option flag")
  else
  let ext := if String.eqb fileType "code" then "scilla" else "json" in
  if negb (truthy data) then throw (Error invalidParams)
  else
  contractAddress <- lift (getProp data "0") ;;
  valid <- lift (match contractAddress with
                 | VUndefined | VNull => Return false
                 | VStr a => Return (isAddress env a)
                 | v => isAddressOfNonString v
                 end) ;;
  if negb valid then throw (Error "Address size inappropriate")
  else
  lowered <- lift (callToLowerCase contractAddress) ;;
  let filePath := dataPath +:+ lowered +:+ "_" +:+ fileType +:+ "." +:+ ext in
  fs <- gets files ;;
  match fs !! filePath with
  | None => throw (Error "Address does not exist")
  | Some responseData =>
      if String.eqb fileType "code" then ret (VObj [("code", VStr responseData)])
      else lift (JSON_parse env responseData)
  end.

(** A relation between the state before and the state after that every
    run of m satisfies. *)
Definition keeps {A} (R : State (W := W) -> State (W := W) -> Prop) (m : M A) : Prop :=
  forall s, R s (snd (m s)).

(** What a request may do to the state at most: nonces do not go down,
    ledger entries stay, each creator's list of contracts is extended at
    its end, the block number stays. *)
Definition grows (s s' : State (W := W)) : Prop :=
  (forall c, nonce (getBalance (wallet s) c) <= nonce (getBalance (wallet s') c)) /\
  (forall k, is_Some (transactions s !! k) -> is_Some (transactions s' !! k)) /\
  (forall a l, createdContractsByUsers s !! a = Some l ->
               exists l', createdContractsByUsers s' !! a = Some (l ++ l')) /\
  blockNum s' = blockNum s.

(** Every ledger entry sits under its own ID. *)
Definition keyed_by_ID (s : State (W := W)) : Prop :=
  forall k d, transactions s !! k = Some d -> txn_ID d = k.

(** The request passes the validator with the payload o, options has a
    dataPath, the public key names a sender, the gas price is not below
    the configured one and the fixed transfer fee is fee. *)
Definition admitted (data options dir : value) (o : object)
    (senderAddress : string) (fee : Z) : Prop :=
  checkTransactionJson data = Return true /\
  getProp data "0" = Return (VObj o) /\
  getProp options "dataPath" = Return dir /\
  getAddressFromPublicKey env (getField o "pubKey") = Return senderAddress /\
  lessThan env (getField o "gasPrice") (cfg_gasPrice env) = false /\
  BN env (VNum (Int (cfg_transferGasCost env * cfg_gasPrice env))) = Return fee.

(** The payload's nonce is the sender's nonce plus one. *)
Definition in_sequence (o : object) (senderAddress : string) (s : State (W := W))
    : Prop :=
  strictEqNum (getField o "nonce")
    (nonce (getBalance (wallet s) senderAddress) + 1) = true.

(** new BN accepts amount, gasLimit and gasPrice. *)
Definition priced (o : object) (bnAmount bnGasLimit bnGasPrice : Z) : Prop :=
  BN env (getField o "amount") = Return bnAmount /\
  BN env (getField o "gasLimit") = Return bnGasLimit /\
  BN env (getField o "gasPrice") = Return bnGasPrice.

(** The request takes the contract branch, the sender can pay for
    amount + gasLimit * gasPrice, and the engine answers resp, leaving
    the files fs and gasRemaining units of gas. *)
Definition executed (dir : value) (o : object) (senderAddress : string)
    (bnAmount bnGasLimit bnGasPrice bnGasRemaining : Z)
    (resp : ScillaResponse) (fs : gmap string string) (s : State (W := W)) : Prop :=
  negb (truthy (getField o "code")) && negb (truthy (getField o "data")) = false /\
  sufficientFunds (wallet s) senderAddress (bnAmount + bnGasLimit * bnGasPrice) = true /\
  executeScillaRun env (VObj o) (computeContractAddr (wallet s) senderAddress)
    senderAddress dir (blockNum s) (files s) = (Return resp, fs) /\
  BN env (gasRemaining resp) = Return bnGasRemaining.

(** What a run of processCreateTxn on data from the state s comes to. A
    request that is answered was well-formed, priced and in sequence; its
    record is in the ledger under the id of the answer, the sender's nonce
    is one higher, and the registry has the answer's ContractAddress
    appended when there is one. A request that ends in an exception has
    written neither to the ledger nor to the registry. *)
Definition settled (data : value) (s : State (W := W))
    (out : result Response * State (W := W)) : Prop :=
  match fst out with
  | Return resp =>
      exists o senderAddress,
        checkTransactionJson data = Return true /\
        getProp data "0" = Return (VObj o) /\
        getAddressFromPublicKey env (getField o "pubKey") = Return senderAddress /\
        lessThan env (getField o "gasPrice") (cfg_gasPrice env) = false /\
        in_sequence o senderAddress s /\
        computeTransactionHash (VObj o) = Return (TranID resp) /\
        transactions (snd out)
          = <[TranID resp := details_of o (TranID resp)]> (transactions s) /\
        createdContractsByUsers (snd out)
          = match ContractAddress resp with
            | Some c => appendContract senderAddress c (createdContractsByUsers s)
            | None => createdContractsByUsers s
            end /\
        nonce (getBalance (wallet (snd out)) senderAddress)
          = nonce (getBalance (wallet s) senderAddress) + 1
  | Throw _ =>
      transactions (snd out) = transactions s /\
      createdContractsByUsers (snd out) = createdContractsByUsers s
  end.

(** The state the contract branch leaves once the sender has paid. *)
Definition after_execution (senderAddress : string)
    (bnAmount bnGasLimit bnGasPrice bnGasRemaining : Z)
    (fs : gmap string string) (s : State (W := W)) : State (W := W) :=
  with_wallet (fun w => increaseNonce w senderAddress)
    (with_wallet
       (fun w => deductFunds w senderAddress
                   (bnGasPrice * (bnGasLimit - bnGasRemaining) + bnAmount))
       (with_files fs s)).

End Queries.

(** A second environment for worked examples: the sample one with an
    engine that fails. *)
Module Examples.

Definition failingEngine (payload : value) (contractAddr senderAddress : string)
    (dir : value) (currentBNum : Z) (fs : gmap string string)
    : result ScillaResponse * gmap string string :=
  (Throw (Error "Scilla run failed"), fs).

Definition failingEnv : Env :=
  {| cfg_gasPrice := 1;
     cfg_transferGasCost := 1;
     getAddressFromPublicKey := Sample.addressOf;
     isAddress := Sample.validAddress;
     BN := Sample.parseBN;
     lessThan := Sample.less;
     JSON_parse := Sample.parseJSON;
     executeScillaRun := failingEngine |}.

(** isAddress handed something that has no replace method. *)
Definition nonString (v : value) : result bool := Throw TypeError.

(** The state after Alice's first deployment, with the code file the
    engine keeps beside the state file. *)
Definition deployed : State (W := MapWallet) :=
  let st := snd (processCreateTxn (Sample.env zeros40)
                   (Sample.params 5 zeros40 "100" [("code", VStr "scilla")])
                   Sample.options Sample.st0) in
  with_files
    (<["data/" +:+ computeContractAddr (wallet Sample.st0) Sample.alice +:+ "_code.scilla"
       := "contract HelloWorld"]> (files st)) st.

End Examples.

(* ===================================================================== *)
(** * Properties *)
(* ===================================================================== *)

(** ** Snapshot I/O *)

(** C9. A snapshot handed to loadData is what exportData returns right
    after, whatever the state was before the load. *)
Theorem exportData_loadData {W : Type} (S : Snapshot) (st : State (W := W)) :
  exportData (loadData (snap_transactions S) (snap_createdContractsByUsers S) st) = S.
Proof. destruct S as [txns contracts]. reflexivity. Qed.

(** ** Payload validator *)

Lemma NoDup_expectedFields : NoDup expectedFields.
Proof. apply (bool_decide_unpack _). vm_compute. reflexivity. Qed.

Lemma elem_of_nub (l : list string) x : x ∈ nub l ↔ x ∈ l.
Proof.
  induction l as [|y l IH]; simpl; [reflexivity|].
  rewrite !elem_of_cons, list_elem_of_filter, IH.
  destruct (decide (x = y)); tauto.
Qed.

Lemma NoDup_nub (l : list string) : NoDup (nub l).
Proof.
  induction l as [|y l IH]; simpl; constructor.
  - rewrite list_elem_of_filter. intros [Hne _]. by apply Hne.
  - by apply NoDup_filter.
Qed.

Lemma elem_of_intersect a b x : x ∈ intersect a b ↔ x ∈ b ∧ x ∈ a.
Proof. unfold intersect. by rewrite list_elem_of_filter, elem_of_nub. Qed.

Lemma NoDup_intersect a b : NoDup (intersect a b).
Proof. apply NoDup_filter, NoDup_nub. Qed.

(** The overlap has eight elements exactly when every expected field is
    among the keys. *)
Lemma intersect_expected_length (keys : list string) :
  length (intersect keys expectedFields) = 8%nat ↔
  ∀ k, k ∈ expectedFields → k ∈ keys.
Proof.
  assert (Hsub : intersect keys expectedFields ⊆+ expectedFields).
  { apply NoDup_submseteq; [apply NoDup_intersect|].
    intros x Hx. by apply elem_of_intersect in Hx as [? _]. }
  split.
  - intros Hlen k Hk.
    assert (Hperm : intersect keys expectedFields ≡ₚ expectedFields).
    { apply submseteq_length_Permutation; [exact Hsub|]. rewrite Hlen. reflexivity. }
    rewrite <- Hperm in Hk. by apply elem_of_intersect in Hk as [_ ?].
  - intros Hall.
    assert (Hsup : expectedFields ⊆+ intersect keys expectedFields).
    { apply NoDup_submseteq; [apply NoDup_expectedFields|].
      intros x Hx. apply elem_of_intersect. auto. }
    apply submseteq_length in Hsub. apply submseteq_length in Hsup.
    change (length expectedFields) with 8%nat in *. lia.
Qed.

Lemma expected_keys_length (keys : list string) :
  (∀ k, k ∈ expectedFields → k ∈ keys) → (8 <= length keys)%nat.
Proof.
  intros Hall.
  assert (Hsub : expectedFields ⊆+ keys)
    by (apply NoDup_submseteq; [apply NoDup_expectedFields|exact Hall]).
  apply submseteq_length in Hsub. exact Hsub.
Qed.

Lemma index_name_not_expected (i : nat) : index_name i ∉ expectedFields.
Proof.
  unfold index_name, expectedFields.
  destruct (Nat.to_uint i); simpl;
    repeat (apply not_elem_of_cons; split; [discriminate|]); apply not_elem_of_nil.
Qed.

Lemma intersect_index_names (l : list nat) :
  intersect (map index_name l) expectedFields = [].
Proof.
  destruct (intersect (map index_name l) expectedFields) as [|x r] eqn:E; [reflexivity|].
  assert (Hx : x ∈ intersect (map index_name l) expectedFields) by (rewrite E; left).
  apply elem_of_intersect in Hx as [Hexp Hin].
  apply list_elem_of_fmap in Hin as (i & -> & _).
  by apply index_name_not_expected in Hexp.
Qed.

(** The per-field type check has a value for every key and never throws
    on an object: whatever it returns, map only collects it. *)
Lemma typeCheck_object_returns (o : object) (keys : list string) :
  ∃ l, mapM (typeCheck (VObj o)) keys = Return l.
Proof.
  induction keys as [|e keys [l IH]]; simpl; [by eexists|].
  rewrite IH. unfold typeCheck. simpl.
  destruct (String.eqb e "version" || String.eqb e "nonce"); simpl.
  - destruct (negb (isInteger (getField o e))); simpl; by eexists.
  - destruct (negb (strictEqStr (getField o e) "string")); simpl; by eexists.
Qed.

Lemma checkTransactionJson_object_payload (data : value) (o : object) :
  getProp data "0" = Return (VObj o) →
  checkTransactionJson data =
    if (length (map fst o) <? 8)%nat then Return false
    else if negb (length (intersect (map fst o) expectedFields) =? 8)%nat
         then Return false else Return true.
Proof.
  intros Hp. unfold checkTransactionJson.
  assert (Hguard : negb (match data with VNull => true | _ => false end)
                   && negb (String.eqb (typeof data) "object") = false).
  { destruct data; simpl in *; try discriminate; try reflexivity.
    repeat case_match; discriminate. }
  rewrite Hguard, Hp. cbn [rbind Object_keys].
  destruct (length (map fst o) <? 8)%nat; [reflexivity|].
  change (length (seq 0 (length expectedFields))) with 8%nat.
  destruct (length (intersect (map fst o) expectedFields) =? 8)%nat;
    cbn [negb]; [|reflexivity].
  destruct (typeCheck_object_returns o (map fst o)) as [l ->]. reflexivity.
Qed.

Lemma keys_of_non_object (payload : value) (keys : list string) :
  Object_keys payload = Return keys →
  (∀ o, payload ≠ VObj o) →
  intersect keys expectedFields = [].
Proof.
  intros Hk Hno. destruct payload; simpl in Hk; try discriminate.
  - by inversion Hk.
  - by inversion Hk.
  - inversion Hk. apply intersect_index_names.
  - inversion Hk. apply intersect_index_names.
  - by destruct (Hno fields).
Qed.

(** C6, as the code has it. A container that is not an object or an
    array is never accepted (undefined, booleans, numbers and strings
    give false); a container is accepted exactly when its first element is
    an object among whose keys are all eight required names. Other keys,
    code and data or any further one, play no part. *)
Theorem checkTransactionJson_accepts_iff (data : value) :
  match data with
  | VArr _ | VObj _ => True
  | VNull => checkTransactionJson data ≠ Return true
  | _ => checkTransactionJson data = Return false
  end ∧
  (checkTransactionJson data = Return true ↔
   ∃ o, getProp data "0" = Return (VObj o) ∧
        ∀ k, k ∈ expectedFields → k ∈ map fst o).
Proof.
  split.
  { destruct data; try exact I; try reflexivity. discriminate. }
  split.
  - intros Hacc.
    assert (Hc : ∃ payload, getProp data "0" = Return payload).
    { destruct data; try discriminate; simpl; by eexists. }
    destruct Hc as [payload Hp].
    assert (Ho : ∃ o, payload = VObj o).
    { assert (Hcases : (∃ o, payload = VObj o) ∨ ∀ o, payload ≠ VObj o)
        by (destruct payload; (by left; eexists) || (by right)).
      destruct Hcases as [|Hno']; [assumption|exfalso].
      unfold checkTransactionJson in Hacc. rewrite Hp in Hacc.
      destruct (negb _ && negb _); [discriminate|]. cbn [rbind] in Hacc.
      destruct (Object_keys payload) as [keys|] eqn:Hk; [|discriminate].
      cbn [rbind] in Hacc. rewrite (keys_of_non_object _ _ Hk Hno') in Hacc.
      destruct (length keys <? 8)%nat; discriminate. }
    destruct Ho as [o ->]. exists o. split; [exact Hp|].
    rewrite (checkTransactionJson_object_payload _ _ Hp) in Hacc.
    destruct (length (map fst o) <? 8)%nat; [discriminate|].
    destruct (length (intersect (map fst o) expectedFields) =? 8)%nat eqn:E;
      [|discriminate].
    apply Nat.eqb_eq in E. by apply intersect_expected_length.
  - intros (o & Hp & Hall).
    rewrite (checkTransactionJson_object_payload _ _ Hp).
    pose proof (expected_keys_length _ Hall) as Hlen.
    apply intersect_expected_length in Hall. rewrite Hall.
    destruct (Nat.ltb_spec (length (map fst o)) 8); [lia|reflexivity].
Qed.

(** C6, as stated, fails: a payload carrying the eight required fields
    and a ninth key that is neither code nor data is accepted. *)
Lemma checkTransactionJson_extra_key_accepted :
  ¬ (∀ data o,
       checkTransactionJson data = Return true →
       getProp data "0" = Return (VObj o) →
       ∀ k, k ∈ map fst o → k ∈ expectedFields ++ ["code"; "data"]).
Proof.
  intros Hclaim.
  pose (fields := [ ("version", VNum (Int 1)); ("nonce", VNum (Int 5));
                    ("toAddr", VStr Sample.bob); ("amount", VStr "100");
                    ("pubKey", VStr Sample.alicePubKey); ("gasPrice", VStr "1");
                    ("gasLimit", VStr "10"); ("signature", VStr "29ad");
                    ("memo", VStr "hello") ] : object).
  specialize (Hclaim (VArr [VObj fields]) fields eq_refl eq_refl "memo").
  assert (Hin : "memo" ∈ map fst fields)
    by (simpl; rewrite !elem_of_cons; tauto).
  apply Hclaim in Hin. revert Hin. simpl.
  repeat (apply not_elem_of_cons; split; [discriminate|]). apply not_elem_of_nil.
Qed.

(** C2: the code accepts a payload none of whose fields has the required
    type. The callback's return false ends the callback, not the
    validator. *)
Example checkTransactionJson_ill_typed_accepted :
  checkTransactionJson
    (VArr [VObj [ ("version", VStr "1"); ("nonce", VNum (NonInt "1.5"));
                  ("toAddr", VNum (Int 7)); ("amount", VNull);
                  ("pubKey", VBool true); ("gasPrice", VArr []);
                  ("gasLimit", VObj []); ("signature", VNum (Int 0)) ]])
  = Return true.
Proof. reflexivity. Qed.

(** ** Transaction hash *)

(** The text that is hashed keeps the fields in the order supplied. *)
Example stringify_demo :
  stringify (VObj [("version", VNum (Int 1)); ("toAddr", VStr "ab"); ("l", VArr [VNull; VBool true])])
  = Some (text (chars "{" ++ [dquote] ++ chars "version" ++ [dquote] ++ chars ":1,"
                ++ [dquote] ++ chars "toAddr" ++ [dquote] ++ chars ":" ++ [dquote] ++ chars "ab" ++ [dquote]
                ++ chars "," ++ [dquote] ++ chars "l" ++ [dquote] ++ chars ":[null,true]}")).
Proof. reflexivity. Qed.

Lemma omap_cons_eq {A B} (f : A → option B) (x : A) (l : list A) :
  omap f (x :: l) = match f x with Some y => y :: omap f l | None => omap f l end.
Proof. reflexivity. Qed.



(** ** Hexadecimal text and contract addresses *)

Lemma hex_char_digit (d : Z) :
  0 <= d < 16 → hexval (hex_char d) = Some d ∧ is_alnum (hex_char d) = true.
Proof.
  intros Hd.
  assert (Hc : d = 0 ∨ d = 1 ∨ d = 2 ∨ d = 3 ∨ d = 4 ∨ d = 5 ∨ d = 6 ∨ d = 7 ∨
               d = 8 ∨ d = 9 ∨ d = 10 ∨ d = 11 ∨ d = 12 ∨ d = 13 ∨ d = 14 ∨ d = 15)
    by lia.
  repeat (destruct Hc as [->|Hc]; [split; reflexivity|]). subst d. split; reflexivity.
Qed.

Lemma length_hex_fixed (k : nat) (n : Z) : length (hex_fixed k n) = k.
Proof.
  revert n. induction k as [|k IH]; intros n; simpl; [reflexivity|].
  rewrite length_app, IH. simpl. lia.
Qed.

Lemma hex_fixed_zero (k : nat) : hex_fixed k 0 = repeat "0"%char k.
Proof.
  induction k as [|k IH]; [reflexivity|].
  cbn [hex_fixed]. change (0 / 16) with 0. rewrite IH.
  change [hex_char (0 mod 16)] with (repeat "0"%char 1).
  rewrite <- repeat_app. f_equal. lia.
Qed.

Lemma hex_fixed_alnum (k : nat) (n : Z) :
  Forall (λ c, is_alnum c = true) (hex_fixed k n).
Proof.
  revert n. induction k as [|k IH]; intros n; simpl; [constructor|].
  apply Forall_app. split; [apply IH|]. constructor; [|constructor].
  apply hex_char_digit. apply Z.mod_pos_bound. lia.
Qed.

Lemma pow16_succ (k : nat) : 16 ^ Z.of_nat (S k) = 16 * 16 ^ Z.of_nat k.
Proof. rewrite Nat2Z.inj_succ, Z.pow_succ_r by lia. reflexivity. Qed.

(** Left-padding the digits of toString(16) to a width that holds the
    number gives its fixed-width rendering. *)
Lemma pad_hex_digits (k fuel : nat) (n : Z) :
  0 <= n < 16 ^ Z.of_nat (S k) →
  n < 16 ^ Z.of_nat (S fuel) →
  (length (hex_digits (S fuel) n) <= S k)%nat ∧
  repeat "0"%char (S k - length (hex_digits (S fuel) n)) ++ hex_digits (S fuel) n
  = hex_fixed (S k) n.
Proof.
  revert fuel n. induction k as [|k IH]; intros fuel n Hk Hf.
  - change (16 ^ Z.of_nat 1) with 16 in Hk.
    cbn [hex_digits hex_fixed]. destruct (Z.ltb_spec n 16); [|lia].
    rewrite Z.mod_small by lia. split; [simpl; lia|reflexivity].
  - cbn [hex_digits]. destruct (Z.ltb_spec n 16) as [Hlt|Hge].
    + split; [simpl; lia|].
      cbn [hex_fixed length]. rewrite (Z.mod_small n 16), (Z.div_small n 16) by lia.
      change (hex_fixed k (0 / 16) ++ [hex_char (0 mod 16)]) with (hex_fixed (S k) 0).
      rewrite hex_fixed_zero. reflexivity.
    + destruct fuel as [|fuel]; [change (16 ^ Z.of_nat 1) with 16 in Hf; lia|].
      rewrite pow16_succ in Hk, Hf.
      destruct (IH fuel (n / 16)) as [Hlen Heq].
      * split; [apply Z.div_pos; lia|]. apply Z.div_lt_upper_bound; lia.
      * apply Z.div_lt_upper_bound; lia.
      * rewrite length_app. cbn [length]. split; [lia|].
        replace (S (S k) - (length (hex_digits (S fuel) (n / 16)) + 1))%nat
          with (S k - length (hex_digits (S fuel) (n / 16)))%nat by lia.
        rewrite app_assoc, Heq. reflexivity.
Qed.

Lemma toString16_fuel (n : Z) : 0 <= n → n < 16 ^ Z.of_nat (S (Z.to_nat (Z.log2 n))).
Proof.
  intros Hn. rewrite Nat2Z.inj_succ, Z2Nat.id by apply Z.log2_nonneg.
  destruct (Z.eq_dec n 0) as [->|Hne]; [reflexivity|].
  pose proof (Z.log2_spec n ltac:(lia)) as [_ Hlt].
  pose proof (Z.log2_nonneg n).
  assert (2 ^ Z.succ (Z.log2 n) <= 16 ^ Z.succ (Z.log2 n))
    by (apply Z.pow_le_mono_l; lia).
  lia.
Qed.

Lemma pairs_app (n : nat) (l1 l2 : list ascii) :
  length l1 = (2 * n)%nat →
  Sha256.pairs (l1 ++ l2) = Sha256.pairs l1 ++ Sha256.pairs l2.
Proof.
  revert l1. induction n as [|n IH]; intros l1 Hlen.
  - destruct l1; [reflexivity|discriminate].
  - destruct l1 as [|a [|b l1]]; simpl in Hlen; try lia.
    simpl. rewrite IH by lia. reflexivity.
Qed.

(** Read two digits at a time, the fixed-width rendering on 2m digits is
    the big-endian encoding on m bytes. *)
Lemma pairs_hex_fixed (m : nat) (n : Z) :
  Sha256.pairs (hex_fixed (2 * m) n) = be_bytes m n.
Proof.
  revert n. induction m as [|m IH]; intros n; [reflexivity|].
  replace (2 * S m)%nat with (S (S (2 * m))) by lia.
  cbn [hex_fixed be_bytes]. rewrite <- app_assoc. cbn [app].
  rewrite (pairs_app m) by (rewrite length_hex_fixed; lia).
  rewrite Z.div_div by lia. change (16 * 16) with 256. rewrite IH.
  f_equal. cbn [Sha256.pairs]. f_equal. unfold Sha256.parse_pair.
  destruct (hex_char_digit (n / 16 mod 16)) as [-> _]; [apply Z.mod_pos_bound; lia|].
  destruct (hex_char_digit (n mod 16)) as [-> _]; [apply Z.mod_pos_bound; lia|].
  change 256 with (16 * 16). rewrite Z.rem_mul_r by lia. lia.
Qed.

Lemma join_singletons (l : list ascii) :
  join "" (map (λ c, text [c]) l) = text l.
Proof.
  unfold join. induction l as [|c l IH]; [reflexivity|].
  destruct l as [|c' l]; [reflexivity|].
  change (String.concat "" (map (λ c0, text [c0]) (c :: c' :: l)))
    with (String c (String.concat "" (map (λ c0, text [c0]) (c' :: l)))).
  rewrite IH. reflexivity.
Qed.

Lemma filter_all {A} (P : A → Prop) `{∀ x, Decision (P x)} (l : list A) :
  Forall P l → filter P l = l.
Proof.
  induction 1 as [|x l Hx Hl IH]; [reflexivity|].
  rewrite filter_cons_True by assumption. by rewrite IH.
Qed.

(** The sixteen digits handed to update(_, 'hex') decode to the nonce
    on eight big-endian bytes. *)
Lemma nonce_bytes (n : Z) :
  0 <= n < 2 ^ 64 →
  Sha256.toArray_hex (join "" (intToHexArray n 16)) = be_bytes 8 n.
Proof.
  intros Hn. unfold intToHexArray. rewrite join_singletons.
  destruct (pad_hex_digits 15 (Z.to_nat (Z.log2 n)) n) as [_ Hpad].
  { change (16 ^ Z.of_nat 16) with (2 ^ 64). exact Hn. }
  { apply toString16_fuel. lia. }
  unfold toString16. rewrite Hpad.
  unfold Sha256.toArray_hex, chars, text.
  rewrite list_ascii_of_string_of_list_ascii.
  rewrite (filter_all _ _ (hex_fixed_alnum 16 n)).
  rewrite length_hex_fixed. cbn [Nat.odd negb Nat.even].
  apply (pairs_hex_fixed 8).
Qed.

Lemma length_toHex (bs : list Z) : length (Sha256.toHex bs) = (2 * length bs)%nat.
Proof. induction bs as [|b bs IH]; simpl; [reflexivity|]. rewrite IH. lia. Qed.

Lemma drop_toHex (k : nat) (bs : list Z) :
  drop (2 * k) (Sha256.toHex bs) = Sha256.toHex (drop k bs).
Proof.
  revert bs. induction k as [|k IH]; intros bs; [reflexivity|].
  destruct bs as [|b bs]; [reflexivity|].
  replace (2 * S k)%nat with (S (S (2 * k))) by lia. simpl. apply IH.
Qed.

(** A digest has thirty-two bytes. *)
Lemma length_sha256 (msg : list Z) : length (Sha256.sha256 msg) = 32%nat.
Proof. reflexivity. Qed.

(** C5, as the code has it. For a nonce below 2^64 the address is the
    last twenty bytes (forty hexadecimal digits) of the SHA-256 digest of
    the sender address bytes followed by the nonce on EIGHT big-endian
    bytes: intToHexArray(nonce, 16) gives sixteen hexadecimal digits. The
    address depends on the wallet through the sender's nonce only. *)
Theorem computeContractAddr_eight_byte_nonce {W : Type} `{AccountGateway W}
    (w : W) (senderAddr : string) :
  0 <= nonce (getBalance w senderAddr) < 2 ^ 64 →
  computeContractAddr w senderAddr
    = contractAddr_spec 8 senderAddr (nonce (getBalance w senderAddr))
  ∧ length (chars (computeContractAddr w senderAddr)) = 40%nat
  ∧ ∀ w' : W, nonce (getBalance w' senderAddr) = nonce (getBalance w senderAddr) →
              computeContractAddr w' senderAddr = computeContractAddr w senderAddr.
Proof.
  intros Hn.
  assert (Heq : computeContractAddr w senderAddr
                = contractAddr_spec 8 senderAddr (nonce (getBalance w senderAddr))).
  { unfold computeContractAddr, contractAddr_spec, Sha256.digest_hex,
      Sha256.update_hex, Sha256.create, str_drop, chars, text.
    rewrite list_ascii_of_string_of_list_ascii, nonce_bytes by exact Hn.
    cbn [app]. rewrite length_sha256.
    change 24%nat with (2 * 12)%nat. rewrite drop_toHex. reflexivity. }
  split; [exact Heq|split].
  - rewrite Heq. unfold contractAddr_spec, chars, text.
    rewrite list_ascii_of_string_of_list_ascii, length_toHex, length_drop,
      length_sha256. reflexivity.
  - intros w' Hw'. unfold computeContractAddr. rewrite Hw'. reflexivity.
Qed.

(** The theorem at Alice's wallet entry (nonce 4). *)
Lemma computeContractAddr_eight_byte_nonce_witness :
  0 <= nonce (getBalance (wallet Sample.st0) Sample.alice) < 2 ^ 64 ∧
  computeContractAddr (wallet Sample.st0) Sample.alice
  = contractAddr_spec 8 Sample.alice 4.
Proof.
  assert (Hn : 0 <= nonce (getBalance (wallet Sample.st0) Sample.alice) < 2 ^ 64)
    by (vm_compute; split; [discriminate|reflexivity]).
  split; [exact Hn|].
  exact (proj1 (computeContractAddr_eight_byte_nonce
                  (wallet Sample.st0) Sample.alice Hn)).
Defined.

(** C5, as stated, fails: hashing the nonce on sixteen bytes gives another
    address than the code's. *)
Lemma computeContractAddr_not_sixteen_bytes :
  computeContractAddr (wallet Sample.st0) Sample.alice
  ≠ contractAddr_spec 16 Sample.alice
      (nonce (getBalance (wallet Sample.st0) Sample.alice)).
Proof. vm_compute. discriminate. Qed.

(** ** The transaction pipeline *)

Section PipelineProperties.
Context {W : Type} `{AccountGateway W}.
Variable env : Env.

Lemma getBalance_deductFunds_same (w : W) a x :
  getBalance (deductFunds w a x) a
  = {| balance := balance (getBalance w a) - x; nonce := nonce (getBalance w a) |}.
Proof. rewrite getBalance_deductFunds. by case_decide. Qed.

Lemma getBalance_addFunds_same (w : W) a x :
  getBalance (addFunds w a x) a
  = {| balance := balance (getBalance w a) + x; nonce := nonce (getBalance w a) |}.
Proof. rewrite getBalance_addFunds. by case_decide. Qed.

Lemma getBalance_addFunds_other (w : W) a x b :
  b ≠ a → getBalance (addFunds w a x) b = getBalance w b.
Proof. intros Hne. rewrite getBalance_addFunds. by case_decide. Qed.

Lemma getBalance_increaseNonce_same (w : W) a :
  getBalance (increaseNonce w a) a
  = {| balance := balance (getBalance w a); nonce := nonce (getBalance w a) + 1 |}.
Proof. rewrite getBalance_increaseNonce. by case_decide. Qed.

Lemma getBalance_increaseNonce_other (w : W) a b :
  b ≠ a → getBalance (increaseNonce w a) b = getBalance w b.
Proof. intros Hne. rewrite getBalance_increaseNonce. by case_decide. Qed.

Lemma getBalance_deductFunds_other (w : W) a x b :
  b ≠ a → getBalance (deductFunds w a x) b = getBalance w b.
Proof. intros Hne. rewrite getBalance_deductFunds. by case_decide. Qed.

Lemma bind_lift_Return {A B} (r : result A) (a : A) (k : A → M (W := W) B)
    (s : State) :
  r = Return a → bind (lift r) k s = k a s.
Proof. intros ->. reflexivity. Qed.

Lemma bind_gets {A B} (f : State → A) (k : A → M (W := W) B) (s : State) :
  bind (gets f) k s = k (f s) s.
Proof. reflexivity. Qed.

Lemma bind_modify {B} (f : State → State) (k : unit → M (W := W) B) (s : State) :
  bind (modify f) k s = k tt (f s).
Proof. reflexivity. Qed.

Lemma bind_ret {A B} (a : A) (k : A → M (W := W) B) (s : State) :
  bind (ret a) k s = k a s.
Proof. reflexivity. Qed.

Lemma bind_throw {A B} (e : error) (k : A → M (W := W) B) (s : State) :
  bind (throw e) k s = (Throw e, s).
Proof. reflexivity. Qed.

Lemma bind_assoc {A B C} (m : M (W := W) A) (k1 : A → M B) (k2 : B → M C)
    (s : State) :
  bind (bind m k1) k2 s = bind m (λ x, bind (k1 x) k2) s.
Proof. unfold bind. destruct (m s) as [[a|e] s']; reflexivity. Qed.

Lemma bind_runScilla {B} (payload : value) (contractAddr senderAddress : string)
    (dir : value) (currentBNum : Z) (k : ScillaResponse → M (W := W) B)
    (s : State) (resp : ScillaResponse) (fs : gmap string string) :
  executeScillaRun env payload contractAddr senderAddress dir currentBNum (files s)
    = (Return resp, fs) →
  bind (runScilla env payload contractAddr senderAddress dir currentBNum) k s
  = k resp (with_files fs s).
Proof. intros E. unfold bind, runScilla. rewrite E. reflexivity. Qed.

(** One statement of the pipeline: a read of the state, an update of it,
    or a call whose outcome is among the hypotheses. *)
Ltac run_step :=
  first [ rewrite bind_assoc
        | rewrite bind_gets
        | rewrite bind_modify
        | rewrite bind_ret
        | rewrite bind_throw
        | erewrite bind_runScilla by eassumption
        | erewrite bind_lift_Return by (eassumption || reflexivity) ];
  cbv beta.

Lemma computeTransactionHash_object (o : object) :
  ∃ txnId, computeTransactionHash (VObj o) = Return txnId.
Proof. eexists. reflexivity. Qed.

(** A request turned down by the validator changes nothing. *)
Lemma processCreateTxn_malformed_run (data options : value) (st : State) :
  checkTransactionJson data = Return false →
  processCreateTxn env data options st = (Throw (Error "Invalid Tx Json"), st).
Proof. intros Hwf. unfold processCreateTxn. run_step. reflexivity. Qed.



(** The run of a transfer. *)
Lemma processCreateTxn_transfer_run
    (data options dir : value) (o : object) (senderAddress toAddr txnId : string)
    (fee bnAmount bnGasLimit bnGasPrice : Z) (st : State) :
  checkTransactionJson data = Return true →
  getProp data "0" = Return (VObj o) →
  getProp options "dataPath" = Return dir →
  getAddressFromPublicKey env (getField o "pubKey") = Return senderAddress →
  lessThan env (getField o "gasPrice") (cfg_gasPrice env) = false →
  BN env (VNum (Int (cfg_transferGasCost env * cfg_gasPrice env))) = Return fee →
  strictEqNum (getField o "nonce")
    (nonce (getBalance (wallet st) senderAddress) + 1) = true →
  BN env (getField o "amount") = Return bnAmount →
  BN env (getField o "gasLimit") = Return bnGasLimit →
  BN env (getField o "gasPrice") = Return bnGasPrice →
  truthy (getField o "code") = false →
  truthy (getField o "data") = false →
  getField o "toAddr" = VStr toAddr →
  computeTransactionHash (VObj o) = Return txnId →
  processCreateTxn env data options st
  = (Return {| Info := "Non-contract txn, sent to shard";
               ContractAddress := None; TranID := txnId |},
     after_transfer senderAddress (toLowerCase toAddr) (bnAmount + fee) bnAmount
       txnId (details_of o txnId) st).
Proof.
  intros Hwf Hp Hdir Hsender Hgas Hfee Hnonce Hamt Hlim Hprice Hcode Hdata Hto Hid.
  unfold processCreateTxn.
  run_step. cbn [negb]. do 7 run_step.
  rewrite Hgas. do 2 run_step. rewrite Hnonce. cbn [negb].
  do 8 run_step. rewrite Hcode, Hdata. cbn [negb andb].
  do 4 run_step. rewrite Hto. do 9 run_step.
  unfold after_transfer, details_of. rewrite Hto. reflexivity.
Qed.

(** C3, as the code has it. A valid transfer succeeds, raises the
    sender's nonce by one and, when the receiver (toAddr in lower case)
    is another account, takes amount + fee from the sender and credits
    amount to the receiver. When the receiver is the sender, the credit
    lands on the same account and the balance drops by the fee only. *)
Theorem processCreateTxn_transfer
    (data options dir : value) (o : object) (senderAddress toAddr : string)
    (fee bnAmount bnGasLimit bnGasPrice : Z) (st : State) :
  checkTransactionJson data = Return true →
  getProp data "0" = Return (VObj o) →
  getProp options "dataPath" = Return dir →
  getAddressFromPublicKey env (getField o "pubKey") = Return senderAddress →
  lessThan env (getField o "gasPrice") (cfg_gasPrice env) = false →
  BN env (VNum (Int (cfg_transferGasCost env * cfg_gasPrice env))) = Return fee →
  strictEqNum (getField o "nonce")
    (nonce (getBalance (wallet st) senderAddress) + 1) = true →
  BN env (getField o "amount") = Return bnAmount →
  BN env (getField o "gasLimit") = Return bnGasLimit →
  BN env (getField o "gasPrice") = Return bnGasPrice →
  truthy (getField o "code") = false →
  truthy (getField o "data") = false →
  getField o "toAddr" = VStr toAddr →
  let r := processCreateTxn env data options st in
  let receiver := toLowerCase toAddr in
  (∃ txnId, fst r = Return {| Info := "Non-contract txn, sent to shard";
                              ContractAddress := None; TranID := txnId |}) ∧
  nonce (getBalance (wallet (snd r)) senderAddress)
    = nonce (getBalance (wallet st) senderAddress) + 1 ∧
  (receiver ≠ senderAddress →
     balance (getBalance (wallet (snd r)) senderAddress)
       = balance (getBalance (wallet st) senderAddress) - (bnAmount + fee) ∧
     balance (getBalance (wallet (snd r)) receiver)
       = balance (getBalance (wallet st) receiver) + bnAmount) ∧
  (receiver = senderAddress →
     balance (getBalance (wallet (snd r)) senderAddress)
       = balance (getBalance (wallet st) senderAddress) - fee).
Proof.
  intros Hwf Hp Hdir Hsender Hgas Hfee Hnonce Hamt Hlim Hprice Hcode Hdata Hto r receiver.
  destruct (computeTransactionHash_object o) as [txnId Hid].
  subst r. rewrite (processCreateTxn_transfer_run _ _ _ _ _ _ _ _ _ _ _ _
    Hwf Hp Hdir Hsender Hgas Hfee Hnonce Hamt Hlim Hprice Hcode Hdata Hto Hid).
  fold receiver. cbn [fst snd after_transfer wallet with_wallet with_transactions].
  split; [by eexists|].
  destruct (decide (receiver = senderAddress)) as [Heq|Hne].
  - rewrite Heq, getBalance_addFunds_same, getBalance_increaseNonce_same,
      getBalance_deductFunds_same. cbn [balance nonce].
    split; [reflexivity|]. split; [congruence|]. intros _. lia.
  - rewrite (getBalance_addFunds_other _ _ _ senderAddress) by congruence.
    rewrite getBalance_addFunds_same, getBalance_increaseNonce_same,
      getBalance_deductFunds_same.
    rewrite getBalance_increaseNonce_other, getBalance_deductFunds_other by assumption.
    cbn [balance nonce]. split; [reflexivity|]. split; [auto|]. congruence.
Qed.

(** The run of a contract call after which the engine names another
    contract as the next address. *)
Lemma processCreateTxn_multi_contract_run
    (data options dir : value) (o : object) (senderAddress : string)
    (fee bnAmount bnGasLimit bnGasPrice bnGasRemaining : Z)
    (resp : ScillaResponse) (fs : gmap string string) (st : State) :
  checkTransactionJson data = Return true →
  getProp data "0" = Return (VObj o) →
  getProp options "dataPath" = Return dir →
  getAddressFromPublicKey env (getField o "pubKey") = Return senderAddress →
  lessThan env (getField o "gasPrice") (cfg_gasPrice env) = false →
  BN env (VNum (Int (cfg_transferGasCost env * cfg_gasPrice env))) = Return fee →
  strictEqNum (getField o "nonce")
    (nonce (getBalance (wallet st) senderAddress) + 1) = true →
  BN env (getField o "amount") = Return bnAmount →
  BN env (getField o "gasLimit") = Return bnGasLimit →
  BN env (getField o "gasPrice") = Return bnGasPrice →
  negb (truthy (getField o "code")) && negb (truthy (getField o "data")) = false →
  sufficientFunds (wallet st) senderAddress (bnAmount + bnGasLimit * bnGasPrice) = true →
  executeScillaRun env (VObj o) (computeContractAddr (wallet st) senderAddress)
    senderAddress dir (blockNum st) (files st) = (Return resp, fs) →
  BN env (gasRemaining resp) = Return bnGasRemaining →
  nextAddress resp ≠ zeros40 →
  str_drop 2 (nextAddress resp) ≠ senderAddress →
  processCreateTxn env data options st
  = (Throw (Error "Multi-contract calls are not supported yet."),
     with_wallet (λ w, increaseNonce w senderAddress)
       (with_wallet
          (λ w, deductFunds w senderAddress
                  (bnGasPrice * (bnGasLimit - bnGasRemaining) + bnAmount))
          (with_files fs st))).
Proof.
  intros Hwf Hp Hdir Hsender Hgas Hfee Hnonce Hamt Hlim Hprice Hpath Hfunds
    Hrun Hrem Hzero Hself.
  unfold processCreateTxn.
  run_step. cbn [negb]. do 7 run_step.
  rewrite Hgas. do 2 run_step. rewrite Hnonce. cbn [negb].
  do 8 run_step. rewrite Hpath.
  do 4 run_step. rewrite Hfunds. cbn [negb].
  do 8 run_step.
  apply String.eqb_neq in Hzero, Hself. rewrite Hzero, Hself. cbn [negb andb].
  run_step. reflexivity.
Qed.

(** C10. On the contract path, when the engine answers with a next
    address that is neither forty zeros nor the sender's address behind
    its two-character prefix, the request is rejected with the
    multi-contract error after the sender has paid
    gasPrice * (gasLimit - gasRemaining) + amount and the nonce has gone
    up by one; the ledger and the registry are as before. *)
Theorem processCreateTxn_multi_contract
    (data options dir : value) (o : object) (senderAddress : string)
    (fee bnAmount bnGasLimit bnGasPrice bnGasRemaining : Z)
    (resp : ScillaResponse) (fs : gmap string string) (st : State) :
  checkTransactionJson data = Return true →
  getProp data "0" = Return (VObj o) →
  getProp options "dataPath" = Return dir →
  getAddressFromPublicKey env (getField o "pubKey") = Return senderAddress →
  lessThan env (getField o "gasPrice") (cfg_gasPrice env) = false →
  BN env (VNum (Int (cfg_transferGasCost env * cfg_gasPrice env))) = Return fee →
  strictEqNum (getField o "nonce")
    (nonce (getBalance (wallet st) senderAddress) + 1) = true →
  BN env (getField o "amount") = Return bnAmount →
  BN env (getField o "gasLimit") = Return bnGasLimit →
  BN env (getField o "gasPrice") = Return bnGasPrice →
  negb (truthy (getField o "code")) && negb (truthy (getField o "data")) = false →
  sufficientFunds (wallet st) senderAddress (bnAmount + bnGasLimit * bnGasPrice) = true →
  executeScillaRun env (VObj o) (computeContractAddr (wallet st) senderAddress)
    senderAddress dir (blockNum st) (files st) = (Return resp, fs) →
  BN env (gasRemaining resp) = Return bnGasRemaining →
  nextAddress resp ≠ zeros40 →
  str_drop 2 (nextAddress resp) ≠ senderAddress →
  let r := processCreateTxn env data options st in
  fst r = Throw (Error "Multi-contract calls are not supported yet.") ∧
  balance (getBalance (wallet (snd r)) senderAddress)
    = balance (getBalance (wallet st) senderAddress)
      - (bnGasPrice * (bnGasLimit - bnGasRemaining) + bnAmount) ∧
  nonce (getBalance (wallet (snd r)) senderAddress)
    = nonce (getBalance (wallet st) senderAddress) + 1 ∧
  transactions (snd r) = transactions st ∧
  createdContractsByUsers (snd r) = createdContractsByUsers st.
Proof.
  intros Hwf Hp Hdir Hsender Hgas Hfee Hnonce Hamt Hlim Hprice Hpath Hfunds
    Hrun Hrem Hzero Hself r. subst r.
  rewrite (processCreateTxn_multi_contract_run _ _ _ _ _ _ _ _ _ _ _ _ _
    Hwf Hp Hdir Hsender Hgas Hfee Hnonce Hamt Hlim Hprice Hpath Hfunds
    Hrun Hrem Hzero Hself).
  cbn [fst snd wallet with_wallet with_files transactions createdContractsByUsers].
  rewrite getBalance_increaseNonce_same, getBalance_deductFunds_same.
  cbn [balance nonce]. auto.
Qed.

(** The run of a deployment. *)
Lemma processCreateTxn_deployment_run
    (data options dir : value) (o : object) (senderAddress txnId : string)
    (fee bnAmount bnGasLimit bnGasPrice bnGasRemaining : Z)
    (resp : ScillaResponse) (fs : gmap string string) (st : State) :
  checkTransactionJson data = Return true →
  getProp data "0" = Return (VObj o) →
  getProp options "dataPath" = Return dir →
  getAddressFromPublicKey env (getField o "pubKey") = Return senderAddress →
  lessThan env (getField o "gasPrice") (cfg_gasPrice env) = false →
  BN env (VNum (Int (cfg_transferGasCost env * cfg_gasPrice env))) = Return fee →
  strictEqNum (getField o "nonce")
    (nonce (getBalance (wallet st) senderAddress) + 1) = true →
  BN env (getField o "amount") = Return bnAmount →
  BN env (getField o "gasLimit") = Return bnGasLimit →
  BN env (getField o "gasPrice") = Return bnGasPrice →
  truthy (getField o "code") = true →
  getField o "toAddr" = VStr zeros40 →
  sufficientFunds (wallet st) senderAddress (bnAmount + bnGasLimit * bnGasPrice) = true →
  executeScillaRun env (VObj o) (computeContractAddr (wallet st) senderAddress)
    senderAddress dir (blockNum st) (files st) = (Return resp, fs) →
  BN env (gasRemaining resp) = Return bnGasRemaining →
  nextAddress resp = zeros40 ∨ str_drop 2 (nextAddress resp) = senderAddress →
  computeTransactionHash (VObj o) = Return txnId →
  processCreateTxn env data options st
  = (Return {| Info := "Contract Creation txn, sent to shard";
               ContractAddress := Some (computeContractAddr (wallet st) senderAddress);
               TranID := txnId |},
     with_transactions (<[txnId := details_of o txnId]> (transactions st))
       (with_contracts
          (appendContract senderAddress
             (computeContractAddr (wallet st) senderAddress)
             (createdContractsByUsers st))
          (with_wallet (λ w, increaseNonce w senderAddress)
             (with_wallet
                (λ w, deductFunds w senderAddress
                        (bnGasPrice * (bnGasLimit - bnGasRemaining) + bnAmount))
                (with_files fs st))))).
Proof.
  intros Hwf Hp Hdir Hsender Hgas Hfee Hnonce Hamt Hlim Hprice Hcode Hto Hfunds
    Hrun Hrem Hnext Hid.
  assert (Hok : negb (String.eqb (nextAddress resp) zeros40)
                && negb (String.eqb (str_drop 2 (nextAddress resp)) senderAddress)
                = false).
  { destruct Hnext as [->| ->]; rewrite String.eqb_refl; cbn [negb andb];
      [reflexivity|apply andb_false_r]. }
  unfold processCreateTxn.
  run_step. cbn [negb]. do 7 run_step.
  rewrite Hgas. do 2 run_step. rewrite Hnonce. cbn [negb].
  do 8 run_step. rewrite Hcode. cbn [negb andb].
  do 4 run_step. rewrite Hfunds. cbn [negb].
  do 8 run_step. rewrite Hok, Hto. cbn [strictEqStr andb].
  rewrite String.eqb_refl.
  repeat run_step. unfold details_of. rewrite Hto. reflexivity.
Qed.


(** The run of a query for the contracts of a registered creator. *)
Lemma processGetSmartContracts_run
    (query : value) (q dataPath : string) (contracts : list string)
    (st : State (W := W)) :
  truthy query = true →
  getProp query "0" = Return (VStr q) →
  isAddress env (toLowerCase q) = true →
  createdContractsByUsers st !! toLowerCase q = Some contracts →
  processGetSmartContracts env query dataPath st
  = (readStates env dataPath (files st) contracts, st).
Proof.
  intros Htruthy Hfirst Haddr Hreg. unfold processGetSmartContracts.
  rewrite Htruthy. cbn [negb]. do 2 run_step. rewrite Haddr. cbn [negb].
  run_step. rewrite Hreg. run_step. reflexivity.
Qed.

Lemma lookup_appendContract (senderAddress contractAddr : string)
    (registry : gmap string (list string)) :
  appendContract senderAddress contractAddr registry !! senderAddress
  = Some (default [] (registry !! senderAddress) ++ [contractAddr]).
Proof.
  unfold appendContract.
  destruct (registry !! senderAddress) as [l|]; by rewrite lookup_insert_eq.
Qed.


End PipelineProperties.

(** ** Worked examples *)


(** C3 at a concrete request: Alice (1000, nonce 4) sends 100 to Bob. *)
Lemma processCreateTxn_transfer_witness :
  let r := processCreateTxn (Sample.env zeros40)
             (Sample.params 5 Sample.bob "100" []) Sample.options Sample.st0 in
  balance (getBalance (wallet (snd r)) Sample.alice) = 899 ∧
  nonce (getBalance (wallet (snd r)) Sample.alice) = 5 ∧
  balance (getBalance (wallet (snd r)) Sample.bob) = 100.
Proof.
  destruct (processCreateTxn_transfer (Sample.env zeros40)
              (Sample.params 5 Sample.bob "100" []) Sample.options (VStr "data/")
              (Sample.fields 5 Sample.bob "100" []) Sample.alice Sample.bob
              1 100 10 1 Sample.st0)
    as (_ & Hnonce & Hother & _); try (vm_compute; reflexivity).
  destruct Hother as [Hsender Hreceiver]; [vm_compute; discriminate|].
  cbv zeta. rewrite Hnonce, Hsender. split; [|split]; [reflexivity..|].
  change (toLowerCase Sample.bob) with Sample.bob in Hreceiver.
  rewrite Hreceiver. reflexivity.
Defined.

(** C3, as stated, fails: when Alice sends 100 to her own address the
    request is valid and succeeds, and her balance goes from 1000 to 999,
    not to 1000 - (100 + 1). *)
Lemma processCreateTxn_self_transfer :
  let data := Sample.params 5 Sample.alice "100" [] in
  let r := processCreateTxn (Sample.env zeros40) data Sample.options Sample.st0 in
  checkTransactionJson data = Return true ∧
  match fst r with Return _ => True | Throw _ => False end ∧
  nonce (getBalance (wallet (snd r)) Sample.alice) = 5 ∧
  balance (getBalance (wallet (snd r)) Sample.alice) = 999 ∧
  balance (getBalance (wallet (snd r)) Sample.alice)
    ≠ balance (getBalance (wallet Sample.st0) Sample.alice) - (100 + 1).
Proof. vm_compute. repeat split; discriminate. Qed.

(** C10 at a concrete request: a transition call after which the engine
    names another contract. *)
Lemma processCreateTxn_multi_contract_witness :
  let r := processCreateTxn (Sample.env Sample.otherContract)
             (Sample.params 5 Sample.bob "100" [("data", VStr "call")])
             Sample.options Sample.st0 in
  fst r = Throw (Error "Multi-contract calls are not supported yet.") ∧
  balance (getBalance (wallet (snd r)) Sample.alice)
    = balance (getBalance (wallet Sample.st0) Sample.alice)
      - (1 * (10 - 9) + 100) ∧
  nonce (getBalance (wallet (snd r)) Sample.alice)
    = nonce (getBalance (wallet Sample.st0) Sample.alice) + 1 ∧
  transactions (snd r) = transactions Sample.st0 ∧
  createdContractsByUsers (snd r) = createdContractsByUsers Sample.st0.
Proof.
  apply (processCreateTxn_multi_contract (Sample.env Sample.otherContract)
           (Sample.params 5 Sample.bob "100" [("data", VStr "call")])
           Sample.options (VStr "data/")
           (Sample.fields 5 Sample.bob "100" [("data", VStr "call")])
           Sample.alice 1 100 10 1 9
           {| nextAddress := Sample.otherContract; gasRemaining := VNum (Int 9) |}
           Sample.stateFiles Sample.st0);
    vm_compute; (reflexivity || discriminate).
Defined.


(** C7: the request turned down by the validator and the request with
    a stale nonce reach the caller as the same error, message included. *)
Example invalid_nonce_reported_as_malformed :
  fst (processCreateTxn (Sample.env zeros40) (VArr [VObj [("version", VNum (Int 1))]])
         Sample.options Sample.st0)
  = Throw (Error "Invalid Tx Json")
  ∧
  fst (processCreateTxn (Sample.env zeros40) (Sample.params 9 Sample.bob "100" [])
         Sample.options Sample.st0)
  = Throw (Error "Invalid Tx Json").
Proof. split; vm_compute; reflexivity. Qed.

(** The other rejections carry messages of their own. *)
Example rejection_messages :
  fst (processCreateTxn (Sample.env zeros40)
         (VArr [VObj (setField (Sample.fields 5 Sample.bob "100" []) "gasPrice" (VStr "0"))])
         Sample.options Sample.st0)
  = Throw (Error "Payload gas price is insufficient. Current gas price is 1")
  ∧
  fst (processCreateTxn (Sample.env zeros40)
         (Sample.params 5 Sample.bob "5000" [("data", VStr "call")])
         Sample.options Sample.st0)
  = Throw (Error "Insufficient funds")
  ∧
  fst (processCreateTxn (Sample.env Sample.otherContract)
         (Sample.params 5 Sample.bob "100" [("data", VStr "call")])
         Sample.options Sample.st0)
  = Throw (Error "Multi-contract calls are not supported yet.").
Proof. repeat split; vm_compute; reflexivity. Qed.

(** The scenario of the specification: nonce 4 and balance 1000, a
    transfer of 100 at nonce 5, then the same request again. *)
Example transfer_then_replay :
  let request := Sample.params 5 Sample.bob "100" [] in
  let first := processCreateTxn (Sample.env zeros40) request Sample.options Sample.st0 in
  let second := processCreateTxn (Sample.env zeros40) request Sample.options (snd first) in
  getBalance (wallet (snd first)) Sample.alice = {| balance := 899; nonce := 5 |} ∧
  fst second = Throw (Error "Invalid Tx Json") ∧
  getBalance (wallet (snd second)) Sample.alice = {| balance := 898; nonce := 5 |} ∧
  size (transactions (snd second)) = 1%nat.
Proof. repeat split; vm_compute; reflexivity. Qed.

(** SHA-256 on the test vectors "abc" and the empty message. *)
Example sha256_abc :
  Sha256.digest_hex (Sha256.update_bytes Sha256.create (bytes_of_string "abc"))
  = "ba7816bf8f01cfea414140de5dae2223b00361a396177a9cb410ff61f20015ad".
Proof. vm_compute. reflexivity. Qed.

Example sha256_empty :
  Sha256.digest_hex Sha256.create
  = "e3b0c44298fc1c149afbf4c8996fb92427ae41e4649b934ca495991b7852b855".
Proof. vm_compute. reflexivity. Qed.

(* ===================================================================== *)
(** * Further properties of the code *)
(* ===================================================================== *)

(** ** What the validator looks at *)

Lemma accepted_payload_is_object (data : value) :
  checkTransactionJson data = Return true →
  ∃ o, getProp data "0" = Return (VObj o).
Proof.
  intros Hacc.
  assert (Hc : ∃ payload, getProp data "0" = Return payload).
  { destruct data; try discriminate; simpl; by eexists. }
  destruct Hc as [payload Hp].
  assert (Hcases : (∃ o, payload = VObj o) ∨ ∀ o, payload ≠ VObj o)
    by (destruct payload; (by left; eexists) || (by right)).
  destruct Hcases as [[o ->]|Hno]; [by exists o|exfalso].
  unfold checkTransactionJson in Hacc. rewrite Hp in Hacc.
  destruct (negb _ && negb _); [discriminate|]. cbn [rbind] in Hacc.
  destruct (Object_keys payload) as [keys|] eqn:Hk; [|discriminate].
  cbn [rbind] in Hacc. rewrite (keys_of_non_object _ _ Hk Hno) in Hacc.
  destruct (length keys <? 8)%nat; discriminate.
Qed.

Lemma object_payload_verdict (data : value) (o : object) :
  getProp data "0" = Return (VObj o) →
  checkTransactionJson data
  = Return (bool_decide (Forall (λ k, k ∈ map fst o) expectedFields)).
Proof.
  intros Hp. rewrite (checkTransactionJson_object_payload _ _ Hp).
  case_bool_decide as Hall; rewrite Forall_forall in Hall.
  - pose proof (expected_keys_length _ Hall) as Hlen.
    apply intersect_expected_length in Hall. rewrite Hall.
    destruct (Nat.ltb_spec (length (map fst o)) 8); [lia|reflexivity].
  - destruct (length (map fst o) <? 8)%nat; [reflexivity|].
    destruct (Nat.eqb_spec (length (intersect (map fst o) expectedFields)) 8)
      as [Heq|Hne]; [|reflexivity].
    destruct Hall. by apply intersect_expected_length.
Qed.

(** X1. For payloads that are objects the validator looks at the key
    names only: two requests whose payloads have the same keys get the
    same verdict, whatever the values are. *)
Theorem checkTransactionJson_keys_only (data data' : value) (o o' : object) :
  getProp data "0" = Return (VObj o) →
  getProp data' "0" = Return (VObj o') →
  map fst o = map fst o' →
  checkTransactionJson data = checkTransactionJson data'.
Proof.
  intros Hp Hp' Hkeys.
  rewrite (checkTransactionJson_object_payload _ _ Hp),
    (checkTransactionJson_object_payload _ _ Hp'), Hkeys. reflexivity.
Qed.

Lemma setField_keys (o : object) (k : string) (v : value) (x : string) :
  x ∈ map fst o → x ∈ map fst (setField o k v).
Proof.
  induction o as [|[k' v'] rest IH]; cbn [setField map fst].
  - intros Hx. by apply elem_of_nil in Hx.
  - destruct (String.eqb k' k); cbn [map fst]; rewrite !elem_of_cons; tauto.
Qed.

(** X2. Setting a property of an accepted payload, a new one (code,
    data, anything) or one that is there, leaves it accepted. *)
Theorem checkTransactionJson_setField (data data' : value) (o : object)
    (k : string) (v : value) :
  getProp data "0" = Return (VObj o) →
  getProp data' "0" = Return (VObj (setField o k v)) →
  checkTransactionJson data = Return true →
  checkTransactionJson data' = Return true.
Proof.
  intros Hp Hp' Hacc.
  rewrite (object_payload_verdict _ _ Hp) in Hacc.
  rewrite (object_payload_verdict _ _ Hp').
  f_equal. apply bool_decide_eq_true, Forall_forall. intros x Hx.
  apply setField_keys.
  inversion Hacc as [Hdec]. apply bool_decide_eq_true in Hdec.
  rewrite Forall_forall in Hdec. by apply Hdec.
Qed.

(** ** Rejections and what they cost *)

Section Outcomes.
Context {W : Type} `{AccountGateway W}.
Variable env : Env.

Lemma bind_lift_Throw {A B} (r : result A) (e : error) (k : A → M (W := W) B)
    (s : State) :
  r = Throw e → bind (lift r) k s = (Throw e, s).
Proof. intros ->. reflexivity. Qed.

Lemma bind_runScilla_Throw {B} (payload : value) (contractAddr senderAddress : string)
    (dir : value) (currentBNum : Z) (k : ScillaResponse → M (W := W) B)
    (s : State) (e : error) (fs : gmap string string) :
  executeScillaRun env payload contractAddr senderAddress dir currentBNum (files s)
    = (Throw e, fs) →
  bind (runScilla env payload contractAddr senderAddress dir currentBNum) k s
  = (Throw e, with_files fs s).
Proof. intros E. unfold bind, runScilla. rewrite E. reflexivity. Qed.

Ltac run_step :=
  first [ rewrite bind_assoc
        | rewrite bind_gets
        | rewrite bind_modify
        | rewrite bind_ret
        | rewrite bind_throw
        | erewrite bind_runScilla by eassumption
        | erewrite bind_lift_Return by (eassumption || reflexivity) ];
  cbv beta.

(** The statements every admitted request goes through, up to the nonce
    test. *)
Ltac run_admitted Hadm :=
  destruct Hadm as (Hwf & Hp & Hdir & Hsender & Hgas & Hfee);
  unfold processCreateTxn;
  run_step; cbn [negb]; do 7 run_step;
  rewrite Hgas; do 2 run_step.

(** X3. A payload object that lacks one of the eight required fields is
    rejected with Error('Invalid Tx Json') and the state is as it was. *)
Theorem processCreateTxn_missing_field
    (data options : value) (o : object) (k : string) (st : State) :
  getProp data "0" = Return (VObj o) →
  k ∈ expectedFields →
  k ∉ map fst o →
  processCreateTxn env data options st = (Throw (Error "Invalid Tx Json"), st).
Proof.
  intros Hp Hk Hmissing. apply processCreateTxn_malformed_run.
  rewrite (object_payload_verdict _ _ Hp). f_equal.
  apply bool_decide_eq_false. rewrite Forall_forall. intros Hall.
  apply Hmissing, Hall, Hk.
Qed.

(** X4. A params array that is empty or starts with null makes the
    validator itself throw: the request fails with a TypeError, not
    with Error('Invalid Tx Json'), and the state is as it was. *)
Theorem processCreateTxn_no_payload (l : list value) (options : value) (st : State) :
  l = [] ∨ (∃ rest, l = VNull :: rest) →
  checkTransactionJson (VArr l) = Throw TypeError ∧
  processCreateTxn env (VArr l) options st = (Throw TypeError, st).
Proof.
  intros Hl.
  assert (Hv : checkTransactionJson (VArr l) = Throw TypeError)
    by (destruct Hl as [->|[rest ->]]; reflexivity).
  split; [exact Hv|].
  unfold processCreateTxn. erewrite bind_lift_Throw by exact Hv. reflexivity.
Qed.

(** X5. A well-formed request whose gas price compares below the
    configured one is rejected with the gas-price message; nothing is
    charged and nothing is written. *)
Theorem processCreateTxn_low_gas_price
    (data options dir : value) (o : object) (senderAddress : string) (st : State) :
  checkTransactionJson data = Return true →
  getProp data "0" = Return (VObj o) →
  getProp options "dataPath" = Return dir →
  getAddressFromPublicKey env (getField o "pubKey") = Return senderAddress →
  lessThan env (getField o "gasPrice") (cfg_gasPrice env) = true →
  processCreateTxn env data options st
  = (Throw (Error ("Payload gas price is insufficient. Current gas price is "
                   +:+ pretty (cfg_gasPrice env))), st).
Proof.
  intros Hwf Hp Hdir Hsender Hgas. unfold processCreateTxn.
  run_step. cbn [negb]. do 7 run_step. rewrite Hgas. reflexivity.
Qed.

(** X6. With options null or undefined, reading options.dataPath
    throws: every well-formed request fails with a TypeError before
    anything is charged. *)
Theorem processCreateTxn_no_options (data options : value) (st : State) :
  checkTransactionJson data = Return true →
  options = VUndefined ∨ options = VNull →
  processCreateTxn env data options st = (Throw TypeError, st).
Proof.
  intros Hwf Hopt. unfold processCreateTxn.
  run_step. cbn [negb]. run_step.
  erewrite bind_lift_Throw; [reflexivity|]. by destruct Hopt as [->| ->].
Qed.

(** X7. On the contract branch a sender who cannot pay for
    amount + gasLimit * gasPrice is rejected with
    Error('Insufficient funds') before the engine runs: the state,
    files included, is as it was. *)
Theorem processCreateTxn_insufficient_funds
    (data options dir : value) (o : object) (senderAddress : string)
    (fee bnAmount bnGasLimit bnGasPrice : Z) (st : State) :
  admitted env data options dir o senderAddress fee →
  in_sequence o senderAddress st →
  priced env o bnAmount bnGasLimit bnGasPrice →
  negb (truthy (getField o "code")) && negb (truthy (getField o "data")) = false →
  sufficientFunds (wallet st) senderAddress (bnAmount + bnGasLimit * bnGasPrice)
    = false →
  processCreateTxn env data options st = (Throw (Error "Insufficient funds"), st).
Proof.
  intros Hadm Hnonce (Hamt & Hlim & Hprice) Hpath Hfunds.
  run_admitted Hadm. rewrite Hnonce. cbn [negb].
  do 8 run_step. rewrite Hpath. do 4 run_step. rewrite Hfunds. cbn [negb].
  run_step. reflexivity.
Qed.

(** X8. When the engine fails, its error is the request's error; the
    sender is not charged, the nonce stays, ledger and registry are not
    written. Only the files are as the engine left them. *)
Theorem processCreateTxn_engine_failure
    (data options dir : value) (o : object) (senderAddress : string)
    (fee bnAmount bnGasLimit bnGasPrice : Z) (e : error)
    (fs : gmap string string) (st : State) :
  admitted env data options dir o senderAddress fee →
  in_sequence o senderAddress st →
  priced env o bnAmount bnGasLimit bnGasPrice →
  negb (truthy (getField o "code")) && negb (truthy (getField o "data")) = false →
  sufficientFunds (wallet st) senderAddress (bnAmount + bnGasLimit * bnGasPrice)
    = true →
  executeScillaRun env (VObj o) (computeContractAddr (wallet st) senderAddress)
    senderAddress dir (blockNum st) (files st) = (Throw e, fs) →
  processCreateTxn env data options st = (Throw e, with_files fs st).
Proof.
  intros Hadm Hnonce (Hamt & Hlim & Hprice) Hpath Hfunds Hrun.
  run_admitted Hadm. rewrite Hnonce. cbn [negb].
  do 8 run_step. rewrite Hpath. do 4 run_step. rewrite Hfunds. cbn [negb].
  rewrite bind_assoc. erewrite bind_runScilla_Throw by exact Hrun. reflexivity.
Qed.

(** The run of a transition call on a contract (no deployment). *)
Lemma processCreateTxn_invocation_run
    (data options dir : value) (o : object) (senderAddress txnId : string)
    (fee bnAmount bnGasLimit bnGasPrice bnGasRemaining : Z)
    (resp : ScillaResponse) (fs : gmap string string) (st : State) :
  admitted env data options dir o senderAddress fee →
  in_sequence o senderAddress st →
  priced env o bnAmount bnGasLimit bnGasPrice →
  executed env dir o senderAddress bnAmount bnGasLimit bnGasPrice bnGasRemaining
    resp fs st →
  nextAddress resp = zeros40 ∨ str_drop 2 (nextAddress resp) = senderAddress →
  truthy (getField o "code") && strictEqStr (getField o "toAddr") zeros40 = false →
  computeTransactionHash (VObj o) = Return txnId →
  processCreateTxn env data options st
  = (Return {| Info := "Contract Txn, Shards Match of the sender and receiver";
               ContractAddress := None; TranID := txnId |},
     with_transactions (<[txnId := details_of o txnId]> (transactions st))
       (after_execution senderAddress bnAmount bnGasLimit bnGasPrice
          bnGasRemaining fs st)).
Proof.
  intros Hadm Hnonce (Hamt & Hlim & Hprice) (Hpath & Hfunds & Hrun & Hrem)
    Hnext Hcall Hid.
  assert (Hok : negb (String.eqb (nextAddress resp) zeros40)
                && negb (String.eqb (str_drop 2 (nextAddress resp)) senderAddress)
                = false).
  { destruct Hnext as [->| ->]; rewrite String.eqb_refl; cbn [negb andb];
      [reflexivity|apply andb_false_r]. }
  run_admitted Hadm. rewrite Hnonce. cbn [negb].
  do 8 run_step. rewrite Hpath. do 4 run_step. rewrite Hfunds. cbn [negb].
  do 8 run_step. rewrite Hok, Hcall. repeat run_step. reflexivity.
Qed.

(** X9. A transition call that succeeds (code absent, or toAddr not
    the forty zeros) is answered without a ContractAddress, leaves the
    registry as it was, and writes one ledger entry under the
    transaction id. *)
Theorem processCreateTxn_invocation
    (data options dir : value) (o : object) (senderAddress : string)
    (fee bnAmount bnGasLimit bnGasPrice bnGasRemaining : Z)
    (resp : ScillaResponse) (fs : gmap string string) (st : State) :
  admitted env data options dir o senderAddress fee →
  in_sequence o senderAddress st →
  priced env o bnAmount bnGasLimit bnGasPrice →
  executed env dir o senderAddress bnAmount bnGasLimit bnGasPrice bnGasRemaining
    resp fs st →
  nextAddress resp = zeros40 ∨ str_drop 2 (nextAddress resp) = senderAddress →
  truthy (getField o "code") && strictEqStr (getField o "toAddr") zeros40 = false →
  let r := processCreateTxn env data options st in
  ∃ txnId,
    fst r = Return {| Info := "Contract Txn, Shards Match of the sender and receiver";
                      ContractAddress := None; TranID := txnId |} ∧
    createdContractsByUsers (snd r) = createdContractsByUsers st ∧
    transactions (snd r) = <[txnId := details_of o txnId]> (transactions st).
Proof.
  intros Hadm Hnonce Hpriced Hexec Hnext Hcall r.
  destruct (computeTransactionHash_object o) as [txnId Hid].
  exists txnId. subst r.
  rewrite (processCreateTxn_invocation_run _ _ _ _ _ _ _ _ _ _ _ _ _ _
             Hadm Hnonce Hpriced Hexec Hnext Hcall Hid).
  auto.
Qed.

Lemma strictEqStr_true (v : value) (s : string) :
  strictEqStr v s = true → v = VStr s.
Proof.
  destruct v; cbn [strictEqStr]; try discriminate.
  intros E. apply String.eqb_eq in E. by subst.
Qed.

(** Whatever the engine names as the next address and whatever the
    request was (deployment or call), the contract branch leaves the
    wallet it had once the sender has paid. *)
Lemma processCreateTxn_executed_wallet
    (data options dir : value) (o : object) (senderAddress : string)
    (fee bnAmount bnGasLimit bnGasPrice bnGasRemaining : Z)
    (resp : ScillaResponse) (fs : gmap string string) (st : State) :
  admitted env data options dir o senderAddress fee →
  in_sequence o senderAddress st →
  priced env o bnAmount bnGasLimit bnGasPrice →
  executed env dir o senderAddress bnAmount bnGasLimit bnGasPrice bnGasRemaining
    resp fs st →
  wallet (snd (processCreateTxn env data options st))
  = increaseNonce
      (deductFunds (wallet st) senderAddress
         (bnGasPrice * (bnGasLimit - bnGasRemaining) + bnAmount))
      senderAddress.
Proof.
  intros Hadm Hnonce Hpriced Hexec.
  destruct (computeTransactionHash_object o) as [txnId Hid].
  pose proof Hadm as (Hwf & Hp & Hdir & Hsender & Hgas & Hfee).
  pose proof Hpriced as (Hamt & Hlim & Hprice).
  pose proof Hexec as (Hpath & Hfunds & Hrun & Hrem).
  destruct (String.eqb_spec (nextAddress resp) zeros40) as [Hz|Hz];
    [|destruct (String.eqb_spec (str_drop 2 (nextAddress resp)) senderAddress)
        as [Hs|Hs]].
  3: { rewrite (processCreateTxn_multi_contract_run env _ _ _ _ _ _ _ _ _ _ _ _ _
                  Hwf Hp Hdir Hsender Hgas Hfee Hnonce Hamt Hlim Hprice Hpath
                  Hfunds Hrun Hrem Hz Hs). reflexivity. }
  all: assert (Hnext : nextAddress resp = zeros40
                       ∨ str_drop 2 (nextAddress resp) = senderAddress) by tauto.
  all: destruct (truthy (getField o "code")
                 && strictEqStr (getField o "toAddr") zeros40) eqn:Hdeploy.
  all: try (rewrite (processCreateTxn_invocation_run _ _ _ _ _ _ _ _ _ _ _ _ _ _
                       Hadm Hnonce Hpriced Hexec Hnext Hdeploy Hid); reflexivity).
  all: apply andb_prop in Hdeploy as [Hcode Hto]; apply strictEqStr_true in Hto;
    rewrite (processCreateTxn_deployment_run env _ _ _ _ _ _ _ _ _ _ _ _ _ _
               Hwf Hp Hdir Hsender Hgas Hfee Hnonce Hamt Hlim Hprice Hcode Hto
               Hfunds Hrun Hrem Hnext Hid); reflexivity.
Qed.

(** X10. The contract branch does not overdraw: when the gas price and
    the gas the engine reports as remaining are not negative, the
    sender's balance after the request, accepted or turned down for a
    multi-contract call, is at least the balance before minus
    amount + gasLimit * gasPrice, hence not negative; the nonce is one
    higher. *)
Theorem processCreateTxn_contract_no_overdraft
    (data options dir : value) (o : object) (senderAddress : string)
    (fee bnAmount bnGasLimit bnGasPrice bnGasRemaining : Z)
    (resp : ScillaResponse) (fs : gmap string string) (st : State) :
  admitted env data options dir o senderAddress fee →
  in_sequence o senderAddress st →
  priced env o bnAmount bnGasLimit bnGasPrice →
  executed env dir o senderAddress bnAmount bnGasLimit bnGasPrice bnGasRemaining
    resp fs st →
  0 <= bnGasPrice →
  0 <= bnGasRemaining →
  let r := processCreateTxn env data options st in
  balance (getBalance (wallet st) senderAddress)
    - (bnAmount + bnGasLimit * bnGasPrice)
    <= balance (getBalance (wallet (snd r)) senderAddress) ∧
  0 <= balance (getBalance (wallet (snd r)) senderAddress) ∧
  nonce (getBalance (wallet (snd r)) senderAddress)
    = nonce (getBalance (wallet st) senderAddress) + 1.
Proof.
  intros Hadm Hnonce Hpriced Hexec Hgp Hgr r. subst r.
  rewrite (processCreateTxn_executed_wallet _ _ _ _ _ _ _ _ _ _ _ _ _
             Hadm Hnonce Hpriced Hexec).
  destruct Hexec as (_ & Hfunds & _).
  rewrite sufficientFunds_spec in Hfunds. apply Z.leb_le in Hfunds.
  rewrite getBalance_increaseNonce_same, getBalance_deductFunds_same.
  cbn [balance nonce]. split; [nia|]. split; [nia|reflexivity].
Qed.

(** X11. The transfer branch has no funds test: a transfer to another
    account of more than the sender holds succeeds and leaves the
    sender's balance negative. *)
Theorem processCreateTxn_transfer_overdraft
    (data options dir : value) (o : object) (senderAddress toAddr : string)
    (fee bnAmount bnGasLimit bnGasPrice : Z) (st : State) :
  admitted env data options dir o senderAddress fee →
  in_sequence o senderAddress st →
  priced env o bnAmount bnGasLimit bnGasPrice →
  truthy (getField o "code") = false →
  truthy (getField o "data") = false →
  getField o "toAddr" = VStr toAddr →
  toLowerCase toAddr ≠ senderAddress →
  balance (getBalance (wallet st) senderAddress) < bnAmount + fee →
  let r := processCreateTxn env data options st in
  (∃ resp, fst r = Return resp) ∧
  balance (getBalance (wallet (snd r)) senderAddress) < 0.
Proof.
  intros (Hwf & Hp & Hdir & Hsender & Hgas & Hfee) Hnonce (Hamt & Hlim & Hprice)
    Hcode Hdata Hto Hother Hpoor r.
  destruct (computeTransactionHash_object o) as [txnId Hid]. subst r.
  rewrite (processCreateTxn_transfer_run env _ _ _ _ _ _ _ _ _ _ _ _
    Hwf Hp Hdir Hsender Hgas Hfee Hnonce Hamt Hlim Hprice Hcode Hdata Hto Hid).
  cbn [fst snd after_transfer wallet with_wallet with_transactions].
  split; [by eexists|].
  rewrite getBalance_addFunds_other by congruence.
  rewrite getBalance_increaseNonce_same, getBalance_deductFunds_same.
  cbn [balance]. lia.
Qed.

(** X12. A transfer whose toAddr is not a string (the validator lets
    it through) is charged amount + fee and raises the nonce, then
    fails with a TypeError on toAddr.toLowerCase(): no account is
    credited and no ledger entry is written. *)
Theorem processCreateTxn_transfer_bad_receiver
    (data options dir : value) (o : object) (senderAddress : string)
    (fee bnAmount bnGasLimit bnGasPrice : Z) (st : State) :
  admitted env data options dir o senderAddress fee →
  in_sequence o senderAddress st →
  priced env o bnAmount bnGasLimit bnGasPrice →
  truthy (getField o "code") = false →
  truthy (getField o "data") = false →
  (∀ t, getField o "toAddr" ≠ VStr t) →
  processCreateTxn env data options st
  = (Throw TypeError,
     with_wallet (λ w, increaseNonce w senderAddress)
       (with_wallet (λ w, deductFunds w senderAddress (bnAmount + fee)) st)).
Proof.
  intros Hadm Hnonce (Hamt & Hlim & Hprice) Hcode Hdata Hto.
  run_admitted Hadm. rewrite Hnonce. cbn [negb].
  do 8 run_step. rewrite Hcode, Hdata. cbn [negb andb].
  do 4 run_step. rewrite bind_assoc.
  erewrite bind_lift_Throw; [reflexivity|].
  destruct (getField o "toAddr"); try reflexivity. by destruct (Hto s).
Qed.

(** ** Every run, whatever its outcome *)

(** One statement of the pipeline, by cases on what it yields. *)
Ltac case_step :=
  first
    [ rewrite bind_assoc
    | rewrite bind_gets
    | rewrite bind_modify
    | rewrite bind_ret
    | rewrite bind_throw
    | erewrite bind_lift_Return by (eassumption || reflexivity)
    | erewrite bind_lift_Throw by (eassumption || reflexivity)
    | match goal with
      | |- settled _ _ _ (bind (lift ?r) _ _) => destruct r eqn:?
      | |- settled _ _ _ (bind (runScilla ?e ?p ?c ?a ?d ?b) _ ?s) =>
          destruct (executeScillaRun e p c a d b (files s)) as [[?|?] ?] eqn:?;
          [ erewrite bind_runScilla by eassumption
          | erewrite bind_runScilla_Throw by eassumption ]
      | |- settled _ _ _ (bind (if ?c then _ else _) _ _) => destruct c eqn:?
      | |- settled _ _ _ ((if ?c then _ else _) _) => destruct c eqn:?
      end ];
  cbv beta.

Lemma processCreateTxn_settled (data options : value) (st : State) :
  settled env data st (processCreateTxn env data options st).
Proof.
  unfold processCreateTxn.
  destruct (checkTransactionJson data) as [[|]|] eqn:Hwf.
  2: { case_step. cbn [negb]. split; reflexivity. }
  2: { case_step. split; reflexivity. }
  destruct (accepted_payload_is_object _ Hwf) as [o Hp].
  case_step. cbn [negb]. cbv zeta.
  repeat case_step;
    match goal with
    | |- settled _ _ _ (Throw _, _) => split; reflexivity
    | |- settled _ _ _ (throw _ _) => split; reflexivity
    | _ => idtac
    end.
  all: unfold settled, ret; cbn [fst snd TranID ContractAddress transactions
         createdContractsByUsers wallet with_wallet with_transactions
         with_contracts with_files].
  all: eexists o, _; repeat (split; [first [eassumption | reflexivity]|]).
  all: repeat match goal with
       | |- in_sequence _ _ _ ∧ _ => split; [unfold in_sequence; by destruct (strictEqNum _ _)|]
       | |- _ = _ ∧ _ => split; [first [eassumption | reflexivity]|]
       end.
  all: repeat rewrite getBalance_addFunds;
    repeat case_decide; subst;
    rewrite ?getBalance_increaseNonce_same, ?getBalance_deductFunds_same;
    reflexivity.
Qed.

(** X13. A request is answered only if it was well-formed, its gas
    price was not below the configured one and its nonce was the
    sender's nonce plus one; the answer leaves that nonce exactly one
    higher. *)
Theorem processCreateTxn_success_sound
    (data options : value) (st : State) (resp : Response) :
  fst (processCreateTxn env data options st) = Return resp →
  ∃ o senderAddress,
    checkTransactionJson data = Return true ∧
    getProp data "0" = Return (VObj o) ∧
    getAddressFromPublicKey env (getField o "pubKey") = Return senderAddress ∧
    lessThan env (getField o "gasPrice") (cfg_gasPrice env) = false ∧
    strictEqNum (getField o "nonce")
      (nonce (getBalance (wallet st) senderAddress) + 1) = true ∧
    nonce (getBalance (wallet (snd (processCreateTxn env data options st)))
             senderAddress)
      = nonce (getBalance (wallet st) senderAddress) + 1.
Proof.
  intros Hok. pose proof (processCreateTxn_settled data options st) as Hs.
  unfold settled in Hs. rewrite Hok in Hs.
  destruct Hs as (o & a & H1 & H2 & H3 & H4 & H5 & _ & _ & _ & H9).
  exists o, a. auto 10.
Qed.

(** X14. The answer's TranID is the hash of the payload, the ledger
    after the request is the ledger before with the payload's record
    stored under that id, and the registry changed exactly when the answer
    carries a ContractAddress, which was appended to the sender's list. *)
Theorem processCreateTxn_success_recorded
    (data options : value) (st : State) (resp : Response) :
  fst (processCreateTxn env data options st) = Return resp →
  ∃ o senderAddress,
    getProp data "0" = Return (VObj o) ∧
    getAddressFromPublicKey env (getField o "pubKey") = Return senderAddress ∧
    computeTransactionHash (VObj o) = Return (TranID resp) ∧
    transactions (snd (processCreateTxn env data options st))
      = <[TranID resp := details_of o (TranID resp)]> (transactions st) ∧
    createdContractsByUsers (snd (processCreateTxn env data options st))
      = match ContractAddress resp with
        | Some c => appendContract senderAddress c (createdContractsByUsers st)
        | None => createdContractsByUsers st
        end.
Proof.
  intros Hok. pose proof (processCreateTxn_settled data options st) as Hs.
  unfold settled in Hs. rewrite Hok in Hs.
  destruct Hs as (o & a & _ & H2 & H3 & _ & _ & H6 & H7 & H8 & _).
  exists o, a. auto.
Qed.

(** X15. A request that ends in an exception, whichever it is, has
    written nothing to the ledger and nothing to the registry. *)
Theorem processCreateTxn_failure_writes_nothing
    (data options : value) (st : State) (e : error) :
  fst (processCreateTxn env data options st) = Throw e →
  transactions (snd (processCreateTxn env data options st)) = transactions st ∧
  createdContractsByUsers (snd (processCreateTxn env data options st))
    = createdContractsByUsers st.
Proof.
  intros Hko. pose proof (processCreateTxn_settled data options st) as Hs.
  unfold settled in Hs. rewrite Hko in Hs. exact Hs.
Qed.

Lemma processGetTransaction_recorded (query : value) (txnId : string)
    (d : TxnDetails) (st : State (W := W)) :
  truthy query = true →
  getProp query "0" = Return (VStr txnId) →
  transactions st !! txnId = Some d →
  processGetTransaction query st = (Return (Recorded d), st).
Proof.
  intros Htruthy Hfirst Hd. unfold processGetTransaction.
  rewrite Htruthy. cbn [negb]. do 3 run_step. rewrite Hd. reflexivity.
Qed.

(** X16. The record of an answered request can be read back:
    processGetTransaction with the answer's TranID returns the record made
    of the payload's fields, and leaves the state alone. *)
Theorem processGetTransaction_after_success
    (data options query : value) (st : State) (resp : Response) :
  fst (processCreateTxn env data options st) = Return resp →
  truthy query = true →
  getProp query "0" = Return (VStr (TranID resp)) →
  ∃ o,
    getProp data "0" = Return (VObj o) ∧
    processGetTransaction query (snd (processCreateTxn env data options st))
    = (Return (Recorded (details_of o (TranID resp))),
       snd (processCreateTxn env data options st)).
Proof.
  intros Hok Htruthy Hfirst.
  pose proof (processCreateTxn_settled data options st) as Hs.
  unfold settled in Hs. rewrite Hok in Hs.
  destruct Hs as (o & a & _ & H2 & _ & _ & _ & _ & H7 & _).
  exists o. split; [exact H2|].
  apply (processGetTransaction_recorded _ (TranID resp)); [assumption..|].
  rewrite H7. apply lookup_insert_eq.
Qed.

(** The rules by which a relation between states passes from the
    statements of a computation to the computation. *)
Section Keeps.
Variable R : State (W := W) → State (W := W) → Prop.
Hypothesis R_refl : ∀ s, R s s.
Hypothesis R_trans : ∀ s1 s2 s3, R s1 s2 → R s2 s3 → R s1 s3.

Lemma keeps_bind {A B} (m : M A) (k : A → M B) :
  keeps R m → (∀ a, keeps R (k a)) → keeps R (bind m k).
Proof.
  intros Hm Hk s. unfold bind. specialize (Hm s).
  destruct (m s) as [[a|e] s']; cbn [snd] in *; [|exact Hm].
  eapply R_trans; [exact Hm|apply Hk].
Qed.

Lemma keeps_bind_lift {A B} (r : result A) (k : A → M B) :
  (∀ a, r = Return a → keeps R (k a)) → keeps R (bind (lift r) k).
Proof.
  intros Hk s. unfold bind, lift. destruct r as [a|e]; [by apply Hk|apply R_refl].
Qed.

Lemma keeps_lift {A} (r : result A) : keeps R (lift r).
Proof. intros s. apply R_refl. Qed.

Lemma keeps_gets {A} (f : State → A) : keeps R (gets f).
Proof. intros s. apply R_refl. Qed.

Lemma keeps_ret {A} (a : A) : keeps R (ret a).
Proof. intros s. apply R_refl. Qed.

Lemma keeps_throw {A} (e : error) : keeps R (throw (A := A) e).
Proof. intros s. apply R_refl. Qed.

Lemma keeps_modify (f : State → State) : (∀ s, R s (f s)) → keeps R (modify f).
Proof. intros Hf s. apply Hf. Qed.

Lemma keeps_runScilla (payload : value) (contractAddr senderAddress : string)
    (dir : value) (currentBNum : Z) :
  (∀ fs s, R s (with_files fs s)) →
  keeps R (runScilla env payload contractAddr senderAddress dir currentBNum).
Proof.
  intros Hf s. unfold runScilla.
  destruct (executeScillaRun _ _ _ _ _ _ _) as [r fs]. apply Hf.
Qed.

End Keeps.

Ltac keeps_steps Hrefl Htrans :=
  repeat match goal with
    | |- keeps _ (let _ := _ in _) => cbv zeta
    | |- keeps _ (bind (lift _) _) => apply (keeps_bind_lift _ Hrefl); intros ? ?
    | |- keeps _ (bind _ _) => apply (keeps_bind _ Htrans); [ | intros ? ]
    | |- keeps _ (lift _) => apply (keeps_lift _ Hrefl)
    | |- keeps _ (gets _) => apply (keeps_gets _ Hrefl)
    | |- keeps _ (ret _) => apply (keeps_ret _ Hrefl)
    | |- keeps _ (throw _) => apply (keeps_throw _ Hrefl)
    | |- keeps _ (if ?c then _ else _) => destruct c
    end.

Lemma grows_refl (s : State (W := W)) : grows s s.
Proof.
  repeat split; auto; try lia.
  intros a l Hl. exists []. by rewrite app_nil_r.
Qed.

Lemma grows_trans (s1 s2 s3 : State (W := W)) :
  grows s1 s2 → grows s2 s3 → grows s1 s3.
Proof.
  intros (N1 & T1 & C1 & B1) (N2 & T2 & C2 & B2). repeat split.
  - intros c. specialize (N1 c). specialize (N2 c). lia.
  - auto.
  - intros a l Hl. destruct (C1 a l Hl) as [l1 H1]. destruct (C2 a _ H1) as [l2 H2].
    exists (l1 ++ l2). by rewrite app_assoc.
  - congruence.
Qed.

Lemma grows_wallet (f : W → W) (s : State (W := W)) :
  (∀ w c, nonce (getBalance w c) <= nonce (getBalance (f w) c)) →
  grows s (with_wallet f s).
Proof.
  intros Hf. repeat split; cbn [with_wallet wallet transactions
    createdContractsByUsers blockNum]; auto.
  intros a l Hl. exists []. by rewrite app_nil_r.
Qed.

Lemma grows_files (fs : gmap string string) (s : State (W := W)) :
  grows s (with_files fs s).
Proof.
  repeat split; cbn [with_files wallet transactions createdContractsByUsers
    blockNum]; auto; try lia.
  intros a l Hl. exists []. by rewrite app_nil_r.
Qed.

Lemma lookup_appendContract_ne (senderAddress contractAddr a : string)
    (registry : gmap string (list string)) :
  a ≠ senderAddress →
  appendContract senderAddress contractAddr registry !! a = registry !! a.
Proof.
  intros Hne. unfold appendContract.
  destruct (registry !! senderAddress); by rewrite lookup_insert_ne.
Qed.

Lemma grows_contracts (senderAddress contractAddr : string) (s : State (W := W)) :
  grows s (with_contracts
             (appendContract senderAddress contractAddr (createdContractsByUsers s)) s).
Proof.
  repeat split; cbn [with_contracts wallet transactions createdContractsByUsers
    blockNum]; auto; try lia.
  intros a l Hl. destruct (decide (a = senderAddress)) as [->|Hne].
  - exists [contractAddr]. by rewrite lookup_appendContract, Hl.
  - exists []. by rewrite lookup_appendContract_ne, app_nil_r.
Qed.

Lemma grows_transactions (txnId : string) (d : TxnDetails) (s : State (W := W)) :
  grows s (with_transactions (<[txnId := d]> (transactions s)) s).
Proof.
  repeat split; cbn [with_transactions wallet transactions createdContractsByUsers
    blockNum]; auto; try lia.
  - intros k Hk. rewrite lookup_insert_is_Some. destruct (decide (txnId = k)); auto.
  - intros a l Hl. exists []. by rewrite app_nil_r.
Qed.

(** X17. Whatever the request and its outcome, processCreateTxn lowers
    no account's nonce, removes no ledger entry, only ever extends a
    creator's list of contracts at its end, and leaves the block number
    alone. *)
Theorem processCreateTxn_grows (data options : value) (st : State) :
  (∀ c, nonce (getBalance (wallet st) c)
        <= nonce (getBalance (wallet (snd (processCreateTxn env data options st))) c)) ∧
  (∀ k, is_Some (transactions st !! k) →
        is_Some (transactions (snd (processCreateTxn env data options st)) !! k)) ∧
  (∀ a l, createdContractsByUsers st !! a = Some l →
          ∃ l', createdContractsByUsers (snd (processCreateTxn env data options st)) !! a
                = Some (l ++ l')) ∧
  blockNum (snd (processCreateTxn env data options st)) = blockNum st.
Proof.
  change (grows st (snd (processCreateTxn env data options st))).
  revert st. change (keeps grows (processCreateTxn env data options)).
  unfold processCreateTxn.
  keeps_steps grows_refl grows_trans.
  all: try (apply keeps_runScilla; intros; apply grows_files).
  all: apply keeps_modify; intros s;
    first [ apply grows_contracts | apply grows_transactions | apply grows_wallet ].
  all: intros w c;
    first [ rewrite getBalance_deductFunds
          | rewrite getBalance_increaseNonce
          | rewrite getBalance_addFunds ];
    case_decide; subst; cbn [nonce]; lia.
Qed.

(** X18. If every ledger entry sits under its own ID before a request,
    so it does after, whatever the outcome. *)
Theorem processCreateTxn_keyed_by_ID (data options : value) (st : State) :
  keyed_by_ID st →
  keyed_by_ID (snd (processCreateTxn env data options st)).
Proof.
  revert st.
  change (keeps (λ s s', keyed_by_ID s → keyed_by_ID s')
            (processCreateTxn env data options)).
  assert (Hrefl : ∀ s : State (W := W), keyed_by_ID s → keyed_by_ID s) by auto.
  assert (Htrans : ∀ s1 s2 s3 : State (W := W),
            (keyed_by_ID s1 → keyed_by_ID s2) → (keyed_by_ID s2 → keyed_by_ID s3) →
            keyed_by_ID s1 → keyed_by_ID s3) by auto.
  unfold processCreateTxn.
  keeps_steps Hrefl Htrans.
  all: try (apply keeps_runScilla; intros fs s Hs; exact Hs).
  all: apply keeps_modify; intros s Hs; try exact Hs.
  intros k d. cbn [with_transactions transactions].
  rewrite lookup_insert. case_decide; [|apply Hs].
  intros Hd. inversion Hd. subst. reflexivity.
Qed.

(** X19. A request touches two accounts at most: an address that is
    neither the sender's (the address of the payload's pubKey) nor the
    receiver's (the payload's toAddr in lower case) has the balance and
    the nonce it had, whatever the outcome. *)
Theorem processCreateTxn_other_accounts
    (data options : value) (st : State) (c : string) :
  (∀ payload pubKey senderAddress,
     getProp data "0" = Return payload →
     getProp payload "pubKey" = Return pubKey →
     getAddressFromPublicKey env pubKey = Return senderAddress →
     c ≠ senderAddress) →
  (∀ payload toAddr receiver,
     getProp data "0" = Return payload →
     getProp payload "toAddr" = Return toAddr →
     callToLowerCase toAddr = Return receiver →
     c ≠ receiver) →
  getBalance (wallet (snd (processCreateTxn env data options st))) c
  = getBalance (wallet st) c.
Proof.
  intros Hsender Hreceiver. revert st.
  change (keeps (λ s s', getBalance (wallet s') c = getBalance (wallet s) c)
            (processCreateTxn env data options)).
  assert (Hrefl : ∀ s : State (W := W),
            getBalance (wallet s) c = getBalance (wallet s) c) by auto.
  assert (Htrans : ∀ s1 s2 s3 : State (W := W),
            getBalance (wallet s2) c = getBalance (wallet s1) c →
            getBalance (wallet s3) c = getBalance (wallet s2) c →
            getBalance (wallet s3) c = getBalance (wallet s1) c) by congruence.
  unfold processCreateTxn.
  keeps_steps Hrefl Htrans.
  all: try (apply keeps_runScilla; intros fs s; reflexivity).
  all: apply keeps_modify; intros s; try reflexivity.
  all: cbn [with_wallet wallet].
  all: first [ apply getBalance_deductFunds_other
             | apply getBalance_increaseNonce_other
             | apply getBalance_addFunds_other ].
  all: first [ eapply Hsender; eassumption | eapply Hreceiver; eassumption ].
Qed.

End Outcomes.

(** ** Queries *)

Section QueryProperties.
Context {W : Type} `{AccountGateway W}.
Variable env : Env.
Variable isAddressOfNonString : value → result bool.

Ltac run_step :=
  first [ rewrite bind_assoc
        | rewrite bind_gets
        | rewrite bind_modify
        | rewrite bind_ret
        | rewrite bind_throw
        | erewrite bind_lift_Return by (eassumption || reflexivity) ];
  cbv beta.

(** X20. processGetTransaction never changes the state. Without
    params it fails with INVALID_PARAMS; for a key the ledger does not
    hold it fails with 'Txn Hash not Present.', unless the key names a
    member of Object.prototype (constructor, toString, ...), which is then
    what the lookup returns. *)
Theorem processGetTransaction_lookup (query : value) (st : State (W := W)) :
  snd (processGetTransaction query st) = st ∧
  (truthy query = false →
   fst (processGetTransaction query st) = Throw (Error invalidParams)) ∧
  (∀ first key,
     truthy query = true →
     getProp query "0" = Return first →
     toPropertyKey first = Return key →
     transactions st !! key = None →
     fst (processGetTransaction query st)
     = if bool_decide (key ∈ objectPrototypeNames) then Return (Inherited key)
       else Throw (Error "Txn Hash not Present.")).
Proof.
  split; [|split].
  - unfold processGetTransaction. destruct (truthy query); cbn [negb]; [|reflexivity].
    unfold bind, lift, gets, ret, throw.
    destruct (getProp query "0") as [first|]; [|reflexivity].
    destruct (toPropertyKey first) as [key|]; [|reflexivity]. cbn [snd].
    destruct (transactions st !! key); [reflexivity|].
    by destruct (bool_decide _).
  - intros Hfalsy. unfold processGetTransaction. by rewrite Hfalsy.
  - intros first key Htruthy Hfirst Hkey Hnone. unfold processGetTransaction.
    rewrite Htruthy. cbn [negb]. do 3 run_step. rewrite Hnone.
    by destruct (bool_decide _).
Qed.

Lemma readStates_answer (dataPath : string) (fs : gmap string string)
    (contracts : list string) (states : list ContractState) :
  readStates env dataPath fs contracts = Return states →
  map cs_address states = contracts ∧
  ∀ entry, entry ∈ states →
    ∃ content,
      fs !! (dataPath +:+ toLowerCase (cs_address entry) +:+ "_state.json")
        = Some content
      ∧ JSON_parse env content = Return (cs_state entry).
Proof.
  revert states. induction contracts as [|c rest IH]; intros states Hread.
  - inversion Hread. split; [reflexivity|]. intros entry Hin.
    by apply elem_of_nil in Hin.
  - cbn [readStates] in Hread.
    destruct (fs !! _) as [content|] eqn:Hfile; [|discriminate].
    destruct (JSON_parse env content) as [v|] eqn:Hparse; [|discriminate].
    cbn [rbind] in Hread.
    destruct (readStates env dataPath fs rest) as [tail|] eqn:Hrest; [|discriminate].
    cbn [rbind] in Hread. inversion Hread. subst states.
    destruct (IH tail eq_refl) as [Hmap Hall]. split.
    + cbn [map cs_address]. by rewrite Hmap.
    + intros entry Hin. apply elem_of_cons in Hin as [->|Hin]; [|by apply Hall].
      exists content. by split.
Qed.

Lemma readStates_missing (dataPath : string) (fs : gmap string string)
    (contracts : list string) (c : string) :
  c ∈ contracts →
  fs !! (dataPath +:+ toLowerCase c +:+ "_state.json") = None →
  ∃ e, readStates env dataPath fs contracts = Throw e.
Proof.
  induction contracts as [|c' rest IH]; intros Hin Hnone.
  - by apply elem_of_nil in Hin.
  - cbn [readStates].
    destruct (fs !! (dataPath +:+ toLowerCase c' +:+ "_state.json"))
      as [content|] eqn:Hfile; [|by eexists].
    destruct (JSON_parse env content) as [v|]; [|by eexists]. cbn [rbind].
    apply elem_of_cons in Hin as [->|Hin]; [congruence|].
    destruct (IH Hin Hnone) as [e ->]. by eexists.
Qed.

Lemma processGetSmartContracts_state (query : value) (dataPath : string)
    (st : State (W := W)) :
  snd (processGetSmartContracts env query dataPath st) = st.
Proof.
  unfold processGetSmartContracts. destruct (truthy query); cbn [negb]; [|reflexivity].
  unfold bind, lift, gets, ret, throw.
  destruct (getProp query "0") as [first|]; [|reflexivity].
  destruct (callToLowerCase first) as [addr|]; [|reflexivity].
  destruct (isAddress env addr); cbn [negb snd]; [|reflexivity].
  destruct (createdContractsByUsers st !! addr); reflexivity.
Qed.

Lemma processGetSmartContracts_entries
    (query : value) (dataPath : string) (st : State (W := W))
    (states : list ContractState) :
  fst (processGetSmartContracts env query dataPath st) = Return states →
  ∃ q contracts,
    getProp query "0" = Return (VStr q) ∧
    isAddress env (toLowerCase q) = true ∧
    createdContractsByUsers st !! toLowerCase q = Some contracts ∧
    map cs_address states = contracts ∧
    ∀ entry, entry ∈ states →
      ∃ content,
        files st !! (dataPath +:+ toLowerCase (cs_address entry) +:+ "_state.json")
          = Some content
        ∧ JSON_parse env content = Return (cs_state entry).
Proof.
  intros Hok. unfold processGetSmartContracts in Hok.
  destruct (truthy query); cbn [negb] in Hok; [|discriminate].
  unfold bind, lift, gets, ret, throw in Hok.
  destruct (getProp query "0") as [first|] eqn:Hfirst; [|discriminate].
  destruct first; try discriminate. cbn [callToLowerCase] in Hok.
  destruct (isAddress env (toLowerCase s)) eqn:Haddr; cbn [negb] in Hok;
    [|discriminate].
  destruct (createdContractsByUsers st !! toLowerCase s) as [contracts|] eqn:Hreg;
    [|discriminate].
  cbn [fst] in Hok. destruct (readStates_answer _ _ _ _ Hok) as [Hmap Hall].
  exists s, contracts. auto.
Qed.

(** X21. processGetSmartContracts never changes the state, and what
    it returns is one entry per contract in the list registered under the
    lower-cased argument, in the list's order, each with the parsed
    content of that contract's state file. *)
Theorem processGetSmartContracts_answer
    (query : value) (dataPath : string) (st : State (W := W))
    (states : list ContractState) :
  fst (processGetSmartContracts env query dataPath st) = Return states →
  snd (processGetSmartContracts env query dataPath st) = st ∧
  ∃ q contracts,
    getProp query "0" = Return (VStr q) ∧
    isAddress env (toLowerCase q) = true ∧
    createdContractsByUsers st !! toLowerCase q = Some contracts ∧
    map cs_address states = contracts ∧
    ∀ entry, entry ∈ states →
      ∃ content,
        files st !! (dataPath +:+ toLowerCase (cs_address entry) +:+ "_state.json")
          = Some content
        ∧ JSON_parse env content = Return (cs_state entry).
Proof.
  intros Hok. split.
  - apply processGetSmartContracts_state.
  - by apply processGetSmartContracts_entries.
Qed.

(** X22. processGetSmartContracts fails with 'Address size
    inappropriate' when the lower-cased argument is not an address, with
    'Address does not exist' when no list is registered under it, and with
    some exception, never a shorter list, when the state file of one of
    the listed contracts is missing. *)
Theorem processGetSmartContracts_errors
    (query : value) (q dataPath : string) (st : State (W := W)) :
  truthy query = true →
  getProp query "0" = Return (VStr q) →
  (isAddress env (toLowerCase q) = false →
   fst (processGetSmartContracts env query dataPath st)
   = Throw (Error "Address size inappropriate")) ∧
  (isAddress env (toLowerCase q) = true →
   createdContractsByUsers st !! toLowerCase q = None →
   fst (processGetSmartContracts env query dataPath st)
   = Throw (Error "Address does not exist")) ∧
  (∀ contracts c,
     isAddress env (toLowerCase q) = true →
     createdContractsByUsers st !! toLowerCase q = Some contracts →
     c ∈ contracts →
     files st !! (dataPath +:+ toLowerCase c +:+ "_state.json") = None →
     ∃ e, fst (processGetSmartContracts env query dataPath st) = Throw e).
Proof.
  intros Htruthy Hfirst. repeat split.
  - intros Haddr. unfold processGetSmartContracts.
    rewrite Htruthy. cbn [negb]. do 2 run_step. by rewrite Haddr.
  - intros Haddr Hreg. unfold processGetSmartContracts.
    rewrite Htruthy. cbn [negb]. do 2 run_step. rewrite Haddr. cbn [negb].
    run_step. by rewrite Hreg.
  - intros contracts c Haddr Hreg Hin Hnone.
    rewrite (processGetSmartContracts_run env _ _ dataPath _ _
               Htruthy Hfirst Haddr Hreg).
    cbn [fst]. by apply (readStates_missing _ _ _ c).
Qed.

(** X23. processGetDataFromContract tests the option flag before
    anything else: a flag that is not init, state or code once trimmed
    and lower-cased gives 'Invalid option flag' whatever the params are.
    The state is never changed. *)
Theorem processGetDataFromContract_flag_first
    (data : value) (dataPath type : string) (st : State (W := W)) :
  snd (processGetDataFromContract env isAddressOfNonString data dataPath type st) = st ∧
  (toLowerCase (trim type) ∉ ["init"; "state"; "code"] →
   fst (processGetDataFromContract env isAddressOfNonString data dataPath type st)
   = Throw (Error "Invalid option flag")).
Proof.
  split.
  - unfold processGetDataFromContract. cbv zeta.
    destruct (bool_decide _); cbn [negb]; [|reflexivity].
    destruct (truthy data); cbn [negb]; [|reflexivity].
    unfold bind, lift, gets, ret, throw.
    destruct (getProp data "0") as [contractAddress|]; [|reflexivity].
    destruct (match contractAddress with
              | VUndefined | VNull => Return false
              | VStr a => Return (isAddress env a)
              | _ => isAddressOfNonString contractAddress
              end) as [[|]|]; cbn [negb]; try reflexivity.
    destruct (callToLowerCase contractAddress) as [lowered|]; [|reflexivity].
    cbn [snd]. destruct (files st !! _); [|reflexivity].
    destruct (String.eqb _ _); [reflexivity|].
    by destruct (JSON_parse env _).
  - intros Hflag. unfold processGetDataFromContract. cbv zeta.
    by rewrite bool_decide_eq_false_2.
Qed.

(** The run of processGetDataFromContract on a valid address whose file
    is there. *)
Lemma processGetDataFromContract_run
    (data : value) (a dataPath type content : string) (st : State (W := W)) :
  toLowerCase (trim type) ∈ ["init"; "state"; "code"] →
  truthy data = true →
  getProp data "0" = Return (VStr a) →
  isAddress env a = true →
  files st !! (dataPath +:+ toLowerCase a +:+ "_" +:+ toLowerCase (trim type) +:+ "."
               +:+ (if String.eqb (toLowerCase (trim type)) "code"
                    then "scilla" else "json"))
    = Some content →
  processGetDataFromContract env isAddressOfNonString data dataPath type st
  = (if String.eqb (toLowerCase (trim type)) "code"
     then Return (VObj [("code", VStr content)])
     else JSON_parse env content, st).
Proof.
  intros Hflag Htruthy Hfirst Haddr Hfile.
  unfold processGetDataFromContract. cbv zeta.
  rewrite bool_decide_eq_true_2 by exact Hflag. cbn [negb].
  rewrite Htruthy. cbn [negb]. do 2 run_step. rewrite Haddr. cbn [negb].
  do 2 run_step. rewrite Hfile.
  destruct (String.eqb _ _); reflexivity.
Qed.

(** X24. With the flag code the file <address>_code.scilla is
    returned as it is, wrapped as { code: text } and never parsed; with
    init or state the answer is JSON.parse of <address>_<flag>.json, so
    a file that does not parse makes the query throw. The address in the
    file name is lower-cased, the flag may come in any case and with
    blanks around it. *)
Theorem processGetDataFromContract_answer
    (data : value) (a dataPath type content : string) (st : State (W := W)) :
  truthy data = true →
  getProp data "0" = Return (VStr a) →
  isAddress env a = true →
  (toLowerCase (trim type) = "code" →
   files st !! (dataPath +:+ toLowerCase a +:+ "_code.scilla") = Some content →
   fst (processGetDataFromContract env isAddressOfNonString data dataPath type st)
   = Return (VObj [("code", VStr content)])) ∧
  (toLowerCase (trim type) = "state" →
   files st !! (dataPath +:+ toLowerCase a +:+ "_state.json") = Some content →
   fst (processGetDataFromContract env isAddressOfNonString data dataPath type st)
   = JSON_parse env content) ∧
  (toLowerCase (trim type) = "init" →
   files st !! (dataPath +:+ toLowerCase a +:+ "_init.json") = Some content →
   fst (processGetDataFromContract env isAddressOfNonString data dataPath type st)
   = JSON_parse env content).
Proof.
  intros Htruthy Hfirst Haddr.
  repeat split; intros Hflag Hfile;
    rewrite (processGetDataFromContract_run data a dataPath type content st);
    rewrite ?Hflag; try assumption; try reflexivity.
  all: rewrite !elem_of_cons; tauto.
Qed.

(** X25. Two spellings of an address that differ in letter case only
    and are both valid read the same file and get the same answer. *)
Theorem processGetDataFromContract_case_insensitive
    (data data' : value) (a b dataPath type : string) (st : State (W := W)) :
  truthy data = true →
  truthy data' = true →
  getProp data "0" = Return (VStr a) →
  getProp data' "0" = Return (VStr b) →
  toLowerCase a = toLowerCase b →
  isAddress env a = isAddress env b →
  processGetDataFromContract env isAddressOfNonString data dataPath type st
  = processGetDataFromContract env isAddressOfNonString data' dataPath type st.
Proof.
  intros Ht Ht' Ha Hb Hlower Hvalid.
  unfold processGetDataFromContract. cbv zeta.
  destruct (bool_decide _); cbn [negb]; [|reflexivity].
  rewrite Ht, Ht'. cbn [negb].
  erewrite (bind_lift_Return _ _ _ _ Ha), (bind_lift_Return _ _ _ _ Hb).
  rewrite Hvalid. cbn [callToLowerCase]. rewrite Hlower. reflexivity.
Qed.

(** X26. The two ways to a contract's state agree: each entry that
    processGetSmartContracts returns for a creator carries the state that
    processGetDataFromContract returns for the entry's address with the
    flag state, the address being valid. *)
Theorem processGetSmartContracts_agrees_with_state_query
    (query : value) (dataPath : string) (st : State (W := W))
    (states : list ContractState) (entry : ContractState) :
  fst (processGetSmartContracts env query dataPath st) = Return states →
  entry ∈ states →
  isAddress env (cs_address entry) = true →
  fst (processGetDataFromContract env isAddressOfNonString
         (VArr [VStr (cs_address entry)]) dataPath "state" st)
  = Return (cs_state entry).
Proof.
  intros Hok Hin Haddr.
  destruct (processGetSmartContracts_entries _ _ _ _ Hok)
    as (q & contracts & _ & _ & _ & _ & Hall).
  destruct (Hall entry Hin) as (content & Hfile & Hparse).
  rewrite (processGetDataFromContract_run _ (cs_address entry) dataPath "state"
             content st);
    [ exact Hparse | | reflexivity | reflexivity | exact Haddr | exact Hfile ].
  change (toLowerCase (trim "state")) with "state". rewrite !elem_of_cons. tauto.
Qed.

End QueryProperties.

(** ** Identifiers *)

Lemma hex_char_lower (d : Z) : hex_char d ∈ chars "0123456789abcdef".
Proof.
  apply (bool_decide_unpack _).
  destruct d as [|p|p]; try reflexivity.
  do 4 (try destruct p as [p|p|]; try reflexivity).
Qed.

Lemma toHex_lower (bs : list Z) :
  Forall (λ c, c ∈ chars "0123456789abcdef") (Sha256.toHex bs).
Proof.
  induction bs as [|b bs IH]; [constructor|].
  cbn [Sha256.toHex flat_map app].
  constructor; [apply hex_char_lower|]. constructor; [apply hex_char_lower|].
  exact IH.
Qed.

Lemma digest_hex_format (h : Sha256.hasher) :
  length (chars (Sha256.digest_hex h)) = 64%nat ∧
  Forall (λ c, c ∈ chars "0123456789abcdef") (chars (Sha256.digest_hex h)).
Proof.
  unfold Sha256.digest_hex, chars, text.
  rewrite list_ascii_of_string_of_list_ascii, length_toHex, length_sha256.
  split; [reflexivity|apply toHex_lower].
Qed.

(** X27. Whatever computeTransactionHash returns is sixty-four
    lower-case hexadecimal digits. *)
Theorem computeTransactionHash_format (payload : value) (txnId : string) :
  computeTransactionHash payload = Return txnId →
  length (chars txnId) = 64%nat ∧
  Forall (λ c, c ∈ chars "0123456789abcdef") (chars txnId).
Proof.
  unfold computeTransactionHash. intros Hid.
  destruct (jsonRoundTrip payload) as [copy|]; [|discriminate]. cbn [rbind] in Hid.
  destruct (deleteProp copy "signature") as [copy'|]; [|discriminate].
  cbn [rbind] in Hid. destruct (stringify copy'); [|discriminate].
  inversion Hid. apply digest_hex_format.
Qed.

(** X28. A contract address is forty lower-case hexadecimal digits,
    for every sender and every nonce the wallet reports. *)
Theorem computeContractAddr_format {W : Type} `{AccountGateway W}
    (w : W) (senderAddr : string) :
  length (chars (computeContractAddr w senderAddr)) = 40%nat ∧
  Forall (λ c, c ∈ chars "0123456789abcdef") (chars (computeContractAddr w senderAddr)).
Proof.
  unfold computeContractAddr, str_drop.
  set (h := Sha256.update_hex _ _).
  destruct (digest_hex_format h) as [Hlen Hhex].
  unfold chars, text in *. rewrite list_ascii_of_string_of_list_ascii.
  split.
  - rewrite length_drop, Hlen. reflexivity.
  - apply Forall_drop, Hhex.
Qed.

(** ** The helper intersect *)

(** X29. intersect(a, b) holds the values that are in both lists,
    each one once. *)
Theorem intersect_common (a b : list string) :
  NoDup (intersect a b) ∧ ∀ x, x ∈ intersect a b ↔ x ∈ a ∧ x ∈ b.
Proof.
  split; [apply NoDup_intersect|].
  intros x. rewrite elem_of_intersect. tauto.
Qed.

(** ** The signature and the transaction id *)

Lemma deleteField_omap_deleteField (f : string * value → option (string * value))
    (o : object) (k : string) :
  (∀ kv kv', f kv = Some kv' → fst kv' = fst kv) →
  deleteField (omap f (deleteField o k)) k = deleteField (omap f o) k.
Proof.
  intros Hkey. unfold deleteField.
  induction o as [|[k' v'] rest IH]; [reflexivity|].
  destruct (decide (k' = k)) as [->|Hne].
  - rewrite filter_cons_False by (intros Hn; by apply Hn).
    rewrite IH, omap_cons_eq.
    destruct (f (k, v')) as [kv'|] eqn:E; [|reflexivity].
    apply Hkey in E. cbn [fst] in E.
    rewrite filter_cons_False; [reflexivity|]. intros Hn. by apply Hn.
  - rewrite filter_cons_True by exact Hne. rewrite !omap_cons_eq.
    destruct (f (k', v')) as [kv'|] eqn:E; [|exact IH].
    apply Hkey in E. cbn [fst] in E.
    rewrite !filter_cons_True by (cbn [fst]; congruence). by rewrite IH.
Qed.

(** X30. A payload hashes to the same id with its signature field and
    without it: the id of a request can be computed before it is
    signed. *)
Theorem computeTransactionHash_unsigned (o : object) :
  computeTransactionHash (VObj (deleteField o "signature"))
  = computeTransactionHash (VObj o).
Proof.
  unfold computeTransactionHash.
  cbn [jsonRoundTrip jsonCopy rbind deleteProp].
  rewrite deleteField_omap_deleteField; [reflexivity|].
  intros kv kv' E. destruct (snd kv); inversion E; reflexivity.
Qed.

(** ** The further properties at concrete requests *)

Ltac evaluate :=
  unfold admitted, in_sequence, priced, executed;
  repeat split; vm_compute;
  first [ reflexivity | discriminate | tauto ].

Lemma checkTransactionJson_keys_only_witness :
  checkTransactionJson (Sample.params 5 Sample.bob "100" [])
  = checkTransactionJson (VArr [VObj (Sample.fields 9 Sample.alice "7" [])]).
Proof.
  apply (checkTransactionJson_keys_only _ _
           (Sample.fields 5 Sample.bob "100" []) (Sample.fields 9 Sample.alice "7" []));
    reflexivity.
Defined.

Lemma checkTransactionJson_setField_witness :
  checkTransactionJson
    (VArr [VObj (setField (Sample.fields 5 Sample.bob "100" []) "code" (VStr "scilla"))])
  = Return true.
Proof.
  apply (checkTransactionJson_setField (Sample.params 5 Sample.bob "100" []) _
           (Sample.fields 5 Sample.bob "100" []) "code" (VStr "scilla"));
    reflexivity.
Defined.

Lemma processCreateTxn_missing_field_witness :
  processCreateTxn (Sample.env zeros40)
    (VArr [VObj [("version", VNum (Int 1)); ("toAddr", VStr Sample.bob)]])
    Sample.options Sample.st0
  = (Throw (Error "Invalid Tx Json"), Sample.st0).
Proof.
  apply (processCreateTxn_missing_field (Sample.env zeros40) _ _
           [("version", VNum (Int 1)); ("toAddr", VStr Sample.bob)] "nonce");
    [ reflexivity | | ]; apply (bool_decide_unpack _); vm_compute; reflexivity.
Defined.

Lemma processCreateTxn_no_payload_witness :
  processCreateTxn (Sample.env zeros40) (VArr []) Sample.options Sample.st0
  = (Throw TypeError, Sample.st0).
Proof.
  apply (processCreateTxn_no_payload (Sample.env zeros40) [] Sample.options Sample.st0).
  left. reflexivity.
Defined.

Lemma processCreateTxn_low_gas_price_witness :
  processCreateTxn (Sample.env zeros40)
    (VArr [VObj (setField (Sample.fields 5 Sample.bob "100" []) "gasPrice" (VStr "0"))])
    Sample.options Sample.st0
  = (Throw (Error ("Payload gas price is insufficient. Current gas price is "
                   +:+ pretty (cfg_gasPrice (Sample.env zeros40)))), Sample.st0).
Proof.
  apply (processCreateTxn_low_gas_price (Sample.env zeros40) _ _ (VStr "data/")
           (setField (Sample.fields 5 Sample.bob "100" []) "gasPrice" (VStr "0"))
           Sample.alice);
    evaluate.
Defined.

Lemma processCreateTxn_no_options_witness :
  processCreateTxn (Sample.env zeros40) (Sample.params 5 Sample.bob "100" [])
    VUndefined Sample.st0
  = (Throw TypeError, Sample.st0).
Proof.
  apply (processCreateTxn_no_options (Sample.env zeros40)); [reflexivity|by left].
Defined.

Lemma processCreateTxn_insufficient_funds_witness :
  processCreateTxn (Sample.env zeros40)
    (Sample.params 5 Sample.bob "5000" [("data", VStr "call")])
    Sample.options Sample.st0
  = (Throw (Error "Insufficient funds"), Sample.st0).
Proof.
  apply (processCreateTxn_insufficient_funds (Sample.env zeros40) _ _ (VStr "data/")
           (Sample.fields 5 Sample.bob "5000" [("data", VStr "call")])
           Sample.alice 1 5000 10 1);
    evaluate.
Defined.

Lemma processCreateTxn_engine_failure_witness :
  processCreateTxn Examples.failingEnv
    (Sample.params 5 Sample.bob "100" [("data", VStr "call")])
    Sample.options Sample.st0
  = (Throw (Error "Scilla run failed"), with_files ∅ Sample.st0).
Proof.
  apply (processCreateTxn_engine_failure Examples.failingEnv _ _ (VStr "data/")
           (Sample.fields 5 Sample.bob "100" [("data", VStr "call")])
           Sample.alice 1 100 10 1);
    evaluate.
Defined.

Lemma processCreateTxn_invocation_witness :
  let r := processCreateTxn (Sample.env zeros40)
             (Sample.params 5 Sample.bob "100" [("data", VStr "call")])
             Sample.options Sample.st0 in
  ∃ txnId,
    fst r = Return {| Info := "Contract Txn, Shards Match of the sender and receiver";
                      ContractAddress := None; TranID := txnId |} ∧
    createdContractsByUsers (snd r) = createdContractsByUsers Sample.st0 ∧
    transactions (snd r)
    = <[txnId := details_of (Sample.fields 5 Sample.bob "100" [("data", VStr "call")])
                   txnId]> (transactions Sample.st0).
Proof.
  apply (processCreateTxn_invocation (Sample.env zeros40) _ _ (VStr "data/")
           (Sample.fields 5 Sample.bob "100" [("data", VStr "call")])
           Sample.alice 1 100 10 1 9
           {| nextAddress := zeros40; gasRemaining := VNum (Int 9) |}
           Sample.stateFiles Sample.st0);
    evaluate.
Defined.

Lemma processCreateTxn_contract_no_overdraft_witness :
  let r := processCreateTxn (Sample.env zeros40)
             (Sample.params 5 Sample.bob "100" [("data", VStr "call")])
             Sample.options Sample.st0 in
  balance (getBalance (wallet Sample.st0) Sample.alice) - (100 + 10 * 1)
    <= balance (getBalance (wallet (snd r)) Sample.alice) ∧
  0 <= balance (getBalance (wallet (snd r)) Sample.alice) ∧
  nonce (getBalance (wallet (snd r)) Sample.alice)
    = nonce (getBalance (wallet Sample.st0) Sample.alice) + 1.
Proof.
  apply (processCreateTxn_contract_no_overdraft (Sample.env zeros40) _ _ (VStr "data/")
           (Sample.fields 5 Sample.bob "100" [("data", VStr "call")])
           Sample.alice 1 100 10 1 9
           {| nextAddress := zeros40; gasRemaining := VNum (Int 9) |}
           Sample.stateFiles Sample.st0);
    evaluate.
Defined.

Lemma processCreateTxn_transfer_overdraft_witness :
  let r := processCreateTxn (Sample.env zeros40)
             (Sample.params 5 Sample.bob "2000" []) Sample.options Sample.st0 in
  (∃ resp, fst r = Return resp) ∧
  balance (getBalance (wallet (snd r)) Sample.alice) < 0.
Proof.
  apply (processCreateTxn_transfer_overdraft (Sample.env zeros40) _ _ (VStr "data/")
           (Sample.fields 5 Sample.bob "2000" []) Sample.alice Sample.bob 1 2000 10 1);
    evaluate.
Defined.

Lemma processCreateTxn_transfer_bad_receiver_witness :
  processCreateTxn (Sample.env zeros40)
    (VArr [VObj (setField (Sample.fields 5 Sample.bob "100" []) "toAddr" (VNum (Int 7)))])
    Sample.options Sample.st0
  = (Throw TypeError,
     with_wallet (λ w, increaseNonce w Sample.alice)
       (with_wallet (λ w, deductFunds w Sample.alice (100 + 1)) Sample.st0)).
Proof.
  apply (processCreateTxn_transfer_bad_receiver (Sample.env zeros40) _ _ (VStr "data/")
           (setField (Sample.fields 5 Sample.bob "100" []) "toAddr" (VNum (Int 7)))
           Sample.alice 1 100 10 1);
    evaluate.
Defined.

Lemma processCreateTxn_success_sound_witness :
  ∃ o senderAddress,
    checkTransactionJson (Sample.params 5 Sample.bob "100" []) = Return true ∧
    getProp (Sample.params 5 Sample.bob "100" []) "0" = Return (VObj o) ∧
    getAddressFromPublicKey (Sample.env zeros40) (getField o "pubKey")
      = Return senderAddress ∧
    lessThan (Sample.env zeros40) (getField o "gasPrice")
      (cfg_gasPrice (Sample.env zeros40)) = false ∧
    strictEqNum (getField o "nonce")
      (nonce (getBalance (wallet Sample.st0) senderAddress) + 1) = true ∧
    nonce (getBalance
             (wallet (snd (processCreateTxn (Sample.env zeros40)
                             (Sample.params 5 Sample.bob "100" [])
                             Sample.options Sample.st0)))
             senderAddress)
      = nonce (getBalance (wallet Sample.st0) senderAddress) + 1.
Proof.
  apply (processCreateTxn_success_sound (Sample.env zeros40)
           (Sample.params 5 Sample.bob "100" []) Sample.options Sample.st0
           {| Info := "Non-contract txn, sent to shard";
              ContractAddress := None;
              TranID := "80675409ad4e111b6eafb679d8002b94dbab339361c7363d9fcefe168b750f8a" |}).
  vm_compute. reflexivity.
Defined.

Lemma processCreateTxn_success_recorded_witness :
  let resp := {| Info := "Contract Creation txn, sent to shard";
                 ContractAddress := Some "d0574f73fe947d1729feeb619a7d13e25a935882";
                 TranID := "aac5c509d47a317b5ef72ba7b791934075861881386e1373edce073ef25adc76" |} in
  let data := Sample.params 5 zeros40 "100" [("code", VStr "scilla")] in
  ∃ o senderAddress,
    getProp data "0" = Return (VObj o) ∧
    getAddressFromPublicKey (Sample.env zeros40) (getField o "pubKey")
      = Return senderAddress ∧
    computeTransactionHash (VObj o) = Return (TranID resp) ∧
    transactions (snd (processCreateTxn (Sample.env zeros40) data Sample.options Sample.st0))
      = <[TranID resp := details_of o (TranID resp)]> (transactions Sample.st0) ∧
    createdContractsByUsers
      (snd (processCreateTxn (Sample.env zeros40) data Sample.options Sample.st0))
      = match ContractAddress resp with
        | Some c => appendContract senderAddress c (createdContractsByUsers Sample.st0)
        | None => createdContractsByUsers Sample.st0
        end.
Proof.
  intros resp data.
  apply (processCreateTxn_success_recorded (Sample.env zeros40) data Sample.options
           Sample.st0 resp).
  vm_compute. reflexivity.
Defined.

Lemma processCreateTxn_failure_writes_nothing_witness :
  let r := processCreateTxn (Sample.env zeros40) (Sample.params 9 Sample.bob "100" [])
             Sample.options Sample.st0 in
  transactions (snd r) = transactions Sample.st0 ∧
  createdContractsByUsers (snd r) = createdContractsByUsers Sample.st0.
Proof.
  apply (processCreateTxn_failure_writes_nothing (Sample.env zeros40)
           (Sample.params 9 Sample.bob "100" []) Sample.options Sample.st0
           (Error "Invalid Tx Json")).
  vm_compute. reflexivity.
Defined.

Lemma processGetTransaction_after_success_witness :
  let data := Sample.params 5 Sample.bob "100" [] in
  let txnId := "80675409ad4e111b6eafb679d8002b94dbab339361c7363d9fcefe168b750f8a" in
  let st := snd (processCreateTxn (Sample.env zeros40) data Sample.options Sample.st0) in
  ∃ o,
    getProp data "0" = Return (VObj o) ∧
    processGetTransaction (VArr [VStr txnId]) st
    = (Return (Recorded (details_of o txnId)), st).
Proof.
  intros data txnId st.
  apply (processGetTransaction_after_success (Sample.env zeros40) data Sample.options
           (VArr [VStr txnId]) Sample.st0
           {| Info := "Non-contract txn, sent to shard";
              ContractAddress := None; TranID := txnId |});
    vm_compute; reflexivity.
Defined.

Lemma processCreateTxn_keyed_by_ID_witness :
  keyed_by_ID
    (snd (processCreateTxn (Sample.env zeros40) (Sample.params 5 Sample.bob "100" [])
            Sample.options Sample.st0)).
Proof.
  apply (processCreateTxn_keyed_by_ID (Sample.env zeros40)).
  intros k d Hk. exfalso. revert Hk. apply (eq_None_ne_Some_1 _ _), lookup_empty.
Defined.

Lemma processCreateTxn_other_accounts_witness :
  getBalance
    (wallet (snd (processCreateTxn (Sample.env zeros40)
                    (Sample.params 5 Sample.bob "100" []) Sample.options Sample.st0)))
    "carol"
  = getBalance (wallet Sample.st0) "carol".
Proof.
  apply (processCreateTxn_other_accounts (Sample.env zeros40)
           (Sample.params 5 Sample.bob "100" []) Sample.options Sample.st0 "carol").
  - intros payload pubKey senderAddress Hp Hk Ha.
    vm_compute in Hp. injection Hp as <-.
    vm_compute in Hk. injection Hk as <-.
    vm_compute in Ha. injection Ha as <-. discriminate.
  - intros payload toAddr receiver Hp Ht Hr.
    vm_compute in Hp. injection Hp as <-.
    vm_compute in Ht. injection Ht as <-.
    vm_compute in Hr. injection Hr as <-. discriminate.
Defined.

Lemma processGetSmartContracts_answer_witness :
  let r := processGetSmartContracts (Sample.env zeros40) (VArr [VStr Sample.alice])
             "data/" Examples.deployed in
  let states := [{| cs_address := "d0574f73fe947d1729feeb619a7d13e25a935882";
                    cs_state := VArr [] |}] in
  snd r = Examples.deployed ∧
  ∃ q contracts,
    getProp (VArr [VStr Sample.alice]) "0" = Return (VStr q) ∧
    isAddress (Sample.env zeros40) (toLowerCase q) = true ∧
    createdContractsByUsers Examples.deployed !! toLowerCase q = Some contracts ∧
    map cs_address states = contracts ∧
    ∀ entry, entry ∈ states →
      ∃ content,
        files Examples.deployed
          !! ("data/" +:+ toLowerCase (cs_address entry) +:+ "_state.json")
          = Some content
        ∧ JSON_parse (Sample.env zeros40) content = Return (cs_state entry).
Proof.
  intros r states.
  apply (processGetSmartContracts_answer (Sample.env zeros40) (VArr [VStr Sample.alice])
           "data/" Examples.deployed states).
  vm_compute. reflexivity.
Defined.

Lemma processGetSmartContracts_errors_witness :
  let get q := fst (processGetSmartContracts (Sample.env zeros40) (VArr [VStr q])
                      "data/" Examples.deployed) in
  get "0x12" = Throw (Error "Address size inappropriate") ∧
  get Sample.bob = Throw (Error "Address does not exist").
Proof.
  intros get. split.
  - apply (processGetSmartContracts_errors (Sample.env zeros40) (VArr [VStr "0x12"])
             "0x12" "data/" Examples.deployed); vm_compute; reflexivity.
  - apply (processGetSmartContracts_errors (Sample.env zeros40) (VArr [VStr Sample.bob])
             Sample.bob "data/" Examples.deployed); vm_compute; reflexivity.
Defined.

Lemma processGetDataFromContract_answer_witness :
  fst (processGetDataFromContract (Sample.env zeros40) Examples.nonString
         (VArr [VStr "D0574F73FE947D1729FEEB619A7D13E25A935882"]) "data/" " Code "
         Examples.deployed)
  = Return (VObj [("code", VStr "contract HelloWorld")]).
Proof.
  apply (processGetDataFromContract_answer (Sample.env zeros40) Examples.nonString
           (VArr [VStr "D0574F73FE947D1729FEEB619A7D13E25A935882"])
           "D0574F73FE947D1729FEEB619A7D13E25A935882" "data/" " Code "
           "contract HelloWorld" Examples.deployed);
    vm_compute; reflexivity.
Defined.

Lemma processGetDataFromContract_case_insensitive_witness :
  processGetDataFromContract (Sample.env zeros40) Examples.nonString
    (VArr [VStr "D0574F73FE947D1729FEEB619A7D13E25A935882"]) "data/" "state"
    Examples.deployed
  = processGetDataFromContract (Sample.env zeros40) Examples.nonString
      (VArr [VStr "d0574f73fe947d1729feeb619a7d13e25a935882"]) "data/" "state"
      Examples.deployed.
Proof.
  apply (processGetDataFromContract_case_insensitive (Sample.env zeros40)
           Examples.nonString _ _
           "D0574F73FE947D1729FEEB619A7D13E25A935882"
           "d0574f73fe947d1729feeb619a7d13e25a935882");
    vm_compute; reflexivity.
Defined.

Lemma processGetSmartContracts_agrees_with_state_query_witness :
  fst (processGetDataFromContract (Sample.env zeros40) Examples.nonString
         (VArr [VStr "d0574f73fe947d1729feeb619a7d13e25a935882"]) "data/" "state"
         Examples.deployed)
  = Return (VArr []).
Proof.
  apply (processGetSmartContracts_agrees_with_state_query (Sample.env zeros40)
           Examples.nonString (VArr [VStr Sample.alice]) "data/" Examples.deployed
           [{| cs_address := "d0574f73fe947d1729feeb619a7d13e25a935882";
               cs_state := VArr [] |}]
           {| cs_address := "d0574f73fe947d1729feeb619a7d13e25a935882";
              cs_state := VArr [] |});
    [ vm_compute; reflexivity | apply list_elem_of_here | vm_compute; reflexivity ].
Defined.

Lemma computeTransactionHash_format_witness :
  let txnId := "80675409ad4e111b6eafb679d8002b94dbab339361c7363d9fcefe168b750f8a" in
  length (chars txnId) = 64%nat ∧
  Forall (λ c, c ∈ chars "0123456789abcdef") (chars txnId).
Proof.
  apply (computeTransactionHash_format (VObj (Sample.fields 5 Sample.bob "100" []))).
  vm_compute. reflexivity.
Defined.
